(** * EC2ICManager: the connection workflow of [AwsRdpConnect]

    A shallow embedding of [src/EC2ICManager.py].  The Tk widgets are
    reduced to the values the methods read from them (the selected tree
    item, the profile list) and to a log of the user-visible actions the
    methods request; the operating system is an explicit environment that
    answers every external call the code makes (process creation, the
    state of the tunnel process after the two-second wait, file writes,
    [which], the random generator). *)

From Stdlib Require Import ZArith NArith Strings.Ascii Strings.String Strings.Byte DecimalString.
From stdpp Require Import base option list gmap.

Local Open Scope Z_scope.

(** ** Python values used by the program *)

(** A Python [str] is a sequence of Unicode code points. *)
Abbreviation str := (list N).

(** The string literals of the source are all ASCII. *)
Definition lit (s : string) : str :=
  (fun a => N_of_ascii a) <$> list_ascii_of_string s.

(** [str(n)] for an [int]: decimal digits, with a leading minus sign. *)
Definition str_of_int (n : Z) : str :=
  lit (NilZero.string_of_int (Z.to_int n)).

(** Truth value of a [str]: the empty string is falsy. *)
Definition truthy (s : str) : bool :=
  match s with [] => false | _ :: _ => true end.

(** [s.startswith(p)]. *)
Fixpoint startswith (p s : str) : bool :=
  match p, s with
  | [], _ => true
  | _ :: _, [] => false
  | a :: p', b :: s' => if N.eqb a b then startswith p' s' else false
  end.

(** [needle in hay] on strings: the needle occurs at some offset. *)
Fixpoint contains (needle hay : str) : bool :=
  startswith needle hay ||
  match hay with
  | [] => false
  | _ :: hay' => contains needle hay'
  end.

(** [str.isspace] on one code point (the table of CPython's
    [_PyUnicode_IsWhitespace]). *)
Definition isspace (c : N) : bool :=
  ((9 <=? c) && (c <=? 13) || (28 <=? c) && (c <=? 32) ||
   (c =? 133) || (c =? 160) || (c =? 5760) ||
   (8192 <=? c) && (c <=? 8202) ||
   (c =? 8232) || (c =? 8233) || (c =? 8239) || (c =? 8287) ||
   (c =? 12288))%N.

Fixpoint lstrip (s : str) : str :=
  match s with
  | c :: s' => if isspace c then lstrip s' else s
  | [] => []
  end.

Definition rstrip (s : str) : str := rev (lstrip (rev s)).

(** [s.strip()] without arguments. *)
Definition strip (s : str) : str := rstrip (lstrip s).

(** ** Bytes and [bytes.decode('utf-8')] *)

Abbreviation bytes := (list byte).

Definition is_cont (b : N) : bool := ((128 <=? b) && (b <=? 191))%N.
Definition between (lo hi b : N) : bool := ((lo <=? b) && (b <=? hi))%N.
Definition low6 (b : N) : N := N.land b 63.

(** Strict UTF-8 decoding over byte values: [None] stands for
    [UnicodeDecodeError].  Overlong forms, surrogates and code points
    above U+10FFFF are rejected, as CPython's decoder does. *)
Fixpoint decode_N (bs : list N) : option str :=
  match bs with
  | [] => Some []
  | b0 :: r0 =>
    if (b0 <? 128)%N then cons b0 <$> decode_N r0
    else match r0 with
    | [] => None
    | b1 :: r1 =>
      if between 194 223 b0 then
        if is_cont b1
        then cons (N.lor (N.shiftl (N.land b0 31) 6) (low6 b1)) <$> decode_N r1
        else None
      else match r1 with
      | [] => None
      | b2 :: r2 =>
        if between 224 239 b0 then
          if (if (b0 =? 224)%N then between 160 191 b1
              else if (b0 =? 237)%N then between 128 159 b1
              else is_cont b1) && is_cont b2
          then cons (N.lor (N.shiftl (N.land b0 15) 12)
                       (N.lor (N.shiftl (low6 b1) 6) (low6 b2)))
                 <$> decode_N r2
          else None
        else match r2 with
        | [] => None
        | b3 :: r3 =>
          if between 240 244 b0 then
            if (if (b0 =? 240)%N then between 144 191 b1
                else if (b0 =? 244)%N then between 128 143 b1
                else is_cont b1) && is_cont b2 && is_cont b3
            then cons (N.lor (N.shiftl (N.land b0 7) 18)
                         (N.lor (N.shiftl (low6 b1) 12)
                            (N.lor (N.shiftl (low6 b2) 6) (low6 b3))))
                   <$> decode_N r3
            else None
          else None
        end
      end
    end
  end.

Definition decode_utf8 (bs : bytes) : option str :=
  decode_N (Byte.to_N <$> bs).

(** Bytes of an ASCII literal, for writing concrete process output. *)
Definition blit (s : string) : bytes := list_byte_of_string s.


(** ** Exceptions, user-visible actions, external effects *)

Inductive exn_class :=
  | FileNotFoundError
  | ValueError
  | IndexError
  | UnicodeDecodeError
  | OtherException.

(** An exception with the text of [str(e)]. *)
Record exn := Exn { exn_kind : exn_class; exn_text : str }.

Inductive platform := Windows | Darwin | OtherSystem.

(** What the methods ask of the Tk layer, directly or through a callback
    given to [root.after]. *)
Inductive ui_action :=
  | SetStatus (text : str)
  | ShowWarning (title text : str)
  | ShowError (title text : str)
  | ShowInfo (title text : str)
  | SetProfileVar (profile : str)
  | LoginButton (enabled : bool)
  | OpenSettings
  | ReloadTree.

(** A tuple as [Treeview.item(.., "values")] returns it, or a list as
    [json.load] returns it; Python's [==] never equates the two. *)
Inductive pyseq :=
  | PyTuple (items : list str)
  | PyList (items : list str).

#[global] Instance pyseq_eq_dec : EqDecision pyseq.
Proof. solve_decision. Defined.

Record Settings := {
  rdp_client : str;
  default_profile : str;
  saved_instances : gmap str (list pyseq);
  local_port_range : Z * Z
}.

(** [Ui a]: the action [a] is performed, at once or by a callback given
    to [root.after(0, ..)] that reads only names which stay bound.
    [Callback reads a]: a callback given to [root.after(0, ..)] whose body
    reads the name [reads] bound by [except .. as reads]; Python unbinds
    that name when the handler ends, so the callback performs [a] (whose
    text is that of the handler's exception) only if it runs before that,
    and raises [NameError] inside Tk's event loop otherwise. *)
Inductive effect :=
  | Ui (a : ui_action)
  | Callback (reads : str) (a : ui_action)
  | Spawn (argv : list str) (pid : nat)
  | SpawnFailed (argv : list str) (e : exn)
  | Sleep (seconds : Z)
  | Terminate (pid : nat)
  | MakeDirs (path : str)
  | WriteFile (path text : str)
  | WriteConfig (s : Settings)
  | StartLoginThread (profile : str).

(** ** Processes *)

(** [Terminated reaped]: SIGTERM has been sent by [Popen.terminate];
    [reaped] tells whether the child has been collected, which is when
    [poll()] stops returning [None]. *)
Inductive status :=
  | Running
  | Exited (code : Z) (err : bytes)
  | Terminated (reaped : bool).

Record process := { p_argv : list str; p_status : status }.

(** [Popen.poll()]: [None] while the child has not been collected. *)
Definition poll_status (s : status) : option Z :=
  match s with
  | Running => None
  | Exited code _ => Some code
  | Terminated false => None
  | Terminated true => Some (-15)
  end.

(** [Popen.terminate()]: signals a child that is still there, and does
    nothing for one that has already been collected. *)
Definition terminate_status (s : status) : status :=
  match s with
  | Running => Terminated false
  | Exited code err => Exited code err
  | Terminated reaped => Terminated reaped
  end.

(** What is left to read on the child's error stream. *)
Definition stderr_of (s : status) : bytes :=
  match s with
  | Exited _ err => err
  | _ => []
  end.

(** ** The settings file and the environment *)

(** [Parsed s] stands for a file that holds a complete settings document:
    the four keys, with values of the expected types.  A file that parses
    to any other JSON value is outside this model. *)
Inductive file_state :=
  | Missing
  | Unreadable (e : exn)      (* [open] or [json.load] raises [e] *)
  | Parsed (s : Settings).    (* [json.load] returns this document *)

Record Env := {
  system : platform;                        (* platform.system() *)
  popen : list str -> option exn;           (* Popen(argv): None = started *)
  tunnel_exit : option (Z * bytes);         (* the new tunnel after the 2 s wait *)
  makedirs : str -> option exn;             (* os.makedirs(.., exist_ok=True) *)
  open_w : str -> option exn;               (* open(path, "w") and the writes *)
  path_exists : str -> bool;                (* os.path.exists *)
  path_join : str -> str -> str;            (* os.path.join *)
  home : str;                               (* os.path.expanduser("~") *)
  environ_TEMP : option str;                (* os.environ.get("TEMP") *)
  check_output : list str -> option str;    (* subprocess.check_output: None = raises *)
  randbits : Z;                             (* the generator's next raw draw *)
  decode_error : bytes -> str;              (* str(e) of the error .decode('utf-8') raises *)
  client_exit : list str -> option Z        (* exit status of a started client, if it ends *)
}.

(** ** The application object and the process table *)

Record App := {
  aws_profiles : list str;
  current_profile : option str;
  tunnel_process : option nat;
  settings : Settings;
  config_file : file_state;
  procs : list process;
  log : list effect
}.

Definition set_current_profile (p : option str) (a : App) : App :=
  {| aws_profiles := aws_profiles a; current_profile := p;
     tunnel_process := tunnel_process a; settings := settings a;
     config_file := config_file a; procs := procs a; log := log a |}.

Definition set_tunnel_process (t : option nat) (a : App) : App :=
  {| aws_profiles := aws_profiles a; current_profile := current_profile a;
     tunnel_process := t; settings := settings a;
     config_file := config_file a; procs := procs a; log := log a |}.

Definition set_settings (s : Settings) (a : App) : App :=
  {| aws_profiles := aws_profiles a; current_profile := current_profile a;
     tunnel_process := tunnel_process a; settings := s;
     config_file := config_file a; procs := procs a; log := log a |}.

Definition set_config_file (f : file_state) (a : App) : App :=
  {| aws_profiles := aws_profiles a; current_profile := current_profile a;
     tunnel_process := tunnel_process a; settings := settings a;
     config_file := f; procs := procs a; log := log a |}.

Definition set_procs (ps : list process) (a : App) : App :=
  {| aws_profiles := aws_profiles a; current_profile := current_profile a;
     tunnel_process := tunnel_process a; settings := settings a;
     config_file := config_file a; procs := ps; log := log a |}.

Definition add_log (e : effect) (a : App) : App :=
  {| aws_profiles := aws_profiles a; current_profile := current_profile a;
     tunnel_process := tunnel_process a; settings := settings a;
     config_file := config_file a; procs := procs a; log := log a ++ [e] |}.

Definition set_rdp_client (c : str) (s : Settings) : Settings :=
  {| rdp_client := c; default_profile := default_profile s;
     saved_instances := saved_instances s;
     local_port_range := local_port_range s |}.

Definition set_local_port_range (r : Z * Z) (s : Settings) : Settings :=
  {| rdp_client := rdp_client s; default_profile := default_profile s;
     saved_instances := saved_instances s; local_port_range := r |}.

Definition set_saved_instances (m : gmap str (list pyseq)) (s : Settings)
  : Settings :=
  {| rdp_client := rdp_client s; default_profile := default_profile s;
     saved_instances := m; local_port_range := local_port_range s |}.

(** ** A state-and-exception monad for the methods *)

Definition M (A : Type) : Type := App -> (exn + A) * App.

Definition ret {A} (x : A) : M A := fun a => (inr x, a).
Definition raise {A} (e : exn) : M A := fun a => (inl e, a).
Definition bind {A B} (m : M A) (k : A -> M B) : M B :=
  fun a => match m a with
           | (inr x, a') => k x a'
           | (inl e, a') => (inl e, a')
           end.
Definition get : M App := fun a => (inr a, a).
Definition modify (f : App -> App) : M unit := fun a => (inr tt, f a).
Definition emit (e : effect) : M unit := modify (add_log e).

(** [try: m except Exception as e: h e]. *)
Definition try_except {A} (m : M A) (h : exn -> M A) : M A :=
  fun a => match m a with
           | (inl e, a') => h e a'
           | r => r
           end.

Declare Scope py_scope.
Delimit Scope py_scope with py.
Notation "'let*' x ':=' m 'in' k" := (bind m (fun x => k))
  (at level 10, x name, m at level 100, k at level 200) : py_scope.
Notation "m1 ;; m2" := (bind m1 (fun _ => m2))
  (at level 100, m2 at level 200, right associativity) : py_scope.
Local Open Scope py_scope.

(** [root.after(0, f)] for an [f] that reads no name bound by an [except]
    clause, and a direct call of the Tk layer. *)
Definition after (a : ui_action) : M unit := emit (Ui a).

(** [root.after(0, f)] for an [f] that reads the name [reads], bound by
    the [except] clause the call stands in. *)
Definition after_reading (reads : string) (a : ui_action) : M unit :=
  emit (Callback (lit reads) a).

(** ** Settings: [save_settings], [detect_rdp_client], [load_settings] *)

Definition config_dir (env : Env) : str :=
  path_join env (home env) (lit ".aws_rdp_connect").
Definition config_path (env : Env) : str :=
  path_join env (config_dir env) (lit "config.json").

(** The settings [__init__] installs before [load_settings] runs. *)
Definition default_settings : Settings :=
  {| rdp_client := []; default_profile := [];
     saved_instances := ∅; local_port_range := (9800, 9900) |}.

(** What [json.load] returns for a document [json.dump] has written: a
    tuple is written as an array, and an array is read as a list. *)
Definition as_list (r : pyseq) : pyseq :=
  match r with
  | PyTuple items => PyList items
  | PyList items => PyList items
  end.

Definition dumped (s : Settings) : Settings :=
  set_saved_instances
    ((fun l : list pyseq => as_list <$> l) <$> saved_instances s) s.

Definition save_settings (env : Env) : M unit :=
  match open_w env (config_path env) with
  | None =>
      let* a := get in
      emit (WriteConfig (settings a));;
      modify (set_config_file (Parsed (dumped (settings a))))
  | Some e =>
      after (ShowWarning (lit "Settings Error")
               (lit "Failed to save settings: " ++ exn_text e))
  end.

(** The [for client in ["rdesktop", "xfreerdp"]] loop: the first client
    for which [which] prints a non-empty path wins; a failing [which]
    is skipped by the bare [except]. *)
Fixpoint first_found (env : Env) (clients : list str) : option str :=
  match clients with
  | [] => None
  | client :: rest =>
      match check_output env [lit "which"; client] with
      | Some out =>
          let path := strip out in
          if truthy path then Some path else first_found env rest
      | None => first_found env rest
      end
  end.

Definition detect_rdp_client (env : Env) : M unit :=
  match system env with
  | Windows =>
      modify (fun a => set_settings (set_rdp_client (lit "mstsc.exe") (settings a)) a)
  | Darwin =>
      if path_exists env (lit "/Applications/Microsoft Remote Desktop.app")
      then modify (fun a => set_settings
                     (set_rdp_client (lit "Microsoft Remote Desktop") (settings a)) a)
      else modify (fun a => set_settings (set_rdp_client [] (settings a)) a)
  | OtherSystem =>
      match first_found env [lit "rdesktop"; lit "xfreerdp"] with
      | Some path =>
          modify (fun a => set_settings (set_rdp_client path (settings a)) a)
      | None => ret tt
      end
  end.

Definition load_settings (env : Env) : M unit :=
  try_except
    (match makedirs env (config_dir env) with
     | Some e => raise e
     | None =>
         emit (MakeDirs (config_dir env));;
         let* a := get in
         match config_file a with
         | Parsed s => modify (set_settings s)
         | Unreadable e => raise e
         | Missing =>
             (* First time setup, determine default RDP client *)
             detect_rdp_client env;;
             save_settings env
         end
     end)
    (fun e =>
       after (ShowWarning (lit "Settings Error")
                (lit "Failed to load settings: " ++ exn_text e))).

(** ** Saved instances: [save_instance] *)

(** [selection] is [tree.selection()] with, for each selected item, the
    tuple [tree.item(.., "values")] and the tuple [tree.item(.., "tags")]. *)
Record item := { values : list str; tags : list str }.

(** [tuple[i]]. *)
Definition index (t : list str) (i : nat) : M str :=
  match t !! i with
  | Some x => ret x
  | None => raise (Exn IndexError (lit "tuple index out of range"))
  end.

Definition truthy_list {A} (l : list A) : bool :=
  match l with [] => false | _ :: _ => true end.

Definition profile_truthy (p : option str) : bool :=
  match p with
  | Some s => truthy s
  | None => false
  end.

Definition save_instance (env : Env) (selection : list item) : M unit :=
  match selection with
  | [] => after (ShowWarning (lit "Warning") (lit "Please select an instance first"))
  | it :: _ =>
    if negb (truthy_list (values it))
    then after (ShowWarning (lit "Warning") (lit "Please select an instance first"))
    else
      let selected_instance := PyTuple (values it) in
      let* a := get in
      match current_profile a with
      | Some profile =>
        if negb (truthy profile)
        then after (ShowWarning (lit "Warning") (lit "Please select an AWS profile first"))
        else
          (* Initialize the profile's saved instances list if needed *)
          let saved :=
            match saved_instances (settings a) !! profile with
            | Some _ => saved_instances (settings a)
            | None => <[profile := []]> (saved_instances (settings a))
            end in
          modify (fun a => set_settings (set_saved_instances saved (settings a)) a);;
          let entries := default [] (saved !! profile) in
          if bool_decide (selected_instance ∈ entries)
          then after (ShowInfo (lit "Info")
                        (lit "This instance is already saved for the current profile."))
          else
            modify (fun a => set_settings
                      (set_saved_instances
                         (<[profile := entries ++ [selected_instance]]> saved)
                         (settings a)) a);;
            save_settings env;;
            let* name := index (values it) 0 in
            let* iid := index (values it) 1 in
            after (ShowInfo (lit "Success")
                     (lit "Instance " ++ name ++ lit " (" ++ iid ++
                      lit ") saved for profile " ++ profile));;
            after ReloadTree
      | None => after (ShowWarning (lit "Warning") (lit "Please select an AWS profile first"))
      end
  end.

(** ** Port allocation: [random.randint] on the configured range *)

(** [Random._randbelow(n)] for [n > 0]: some value in [[0, n)], here the
    generator's raw draw reduced into that interval. *)
Definition randbelow (env : Env) (n : Z) : Z := randbits env mod n.

(** [random.randrange(start, stop)].  The text of the [ValueError] names
    the arguments and differs between Python versions; the properties below
    use its class only. *)
Definition randrange (env : Env) (start stop : Z) : exn + Z :=
  let width := stop - start in
  if 0 <? width then inr (start + randbelow env width)
  else inl (Exn ValueError (lit "empty range for randrange()")).

(** [random.randint(a, b)] is [randrange(a, b + 1)]. *)
Definition randint (env : Env) (a b : Z) : exn + Z := randrange env a (b + 1).

(** Lines 461-464: the local port of a new tunnel. *)
Definition allocate_port (env : Env) (s : Settings) : exn + Z :=
  randint env (fst (local_port_range s)) (snd (local_port_range s)).

Definition lift {A} (r : exn + A) : M A :=
  match r with
  | inl e => raise e
  | inr x => ret x
  end.

(** ** Profile resolution (lines 417-440 of [connect_rdp]) *)

(** [str(p)] for a profile that may be [None]. *)
Definition str_of_profile (p : option str) : str :=
  match p with
  | Some s => s
  | None => lit "None"
  end.

Definition profile_not_found (saved_profile : str) (current : option str)
  : ui_action :=
  ShowWarning (lit "Profile Not Found")
    (lit "Saved profile '" ++ saved_profile ++
     lit "' not found in your AWS configuration. Using current profile '" ++
     str_of_profile current ++ lit "' instead.").

(** The connection profile and the warning shown, if any. *)
Definition resolve_profile (current : option str) (tags profiles : list str)
  : option str * option ui_action :=
  match tags with
  | [] => (current, None)
  | saved_profile :: _ =>
      if truthy saved_profile && bool_decide (saved_profile ∈ profiles)
      then (Some saved_profile, None)
      else if truthy saved_profile
      then (current, Some (profile_not_found saved_profile current))
      else (current, None)
  end.

(** [connection_profile and connection_profile != self.current_profile]. *)
Definition profile_switch (connection current : option str) : bool :=
  profile_truthy connection && negb (bool_decide (connection = current)).

Definition aws_sso_login : M unit :=
  let* a := get in
  if negb (profile_truthy (current_profile a))
  then after (ShowWarning (lit "Warning") (lit "Please select an AWS profile first"))
  else
    let profile := str_of_profile (current_profile a) in
    after (SetStatus (lit "Logging in with AWS SSO using profile " ++
                      profile ++ lit "..."));;
    after (LoginButton false);;
    emit (StartLoginThread profile).

(** ** [connect_rdp] *)

(** The result is the argument tuple of the tunnel thread it starts, or
    [None] when it returns without starting one. *)
Definition connect_rdp (env : Env) (selection : list item)
  : M (option (str * Z * str)) :=
  match selection with
  | [] =>
      after (ShowWarning (lit "Warning") (lit "Please select an instance first"));;
      ret None
  | it :: _ =>
    if negb (truthy_list (values it))
    then after (ShowWarning (lit "Warning")
                  (lit "Could not retrieve instance details"));;
         ret None
    else
      let* instance_id := index (values it) 1 in
      let* instance_name := index (values it) 0 in
      let* a := get in
      let '(connection_profile, warning) :=
        resolve_profile (current_profile a) (tags it) (aws_profiles a) in
      match warning with Some w => after w | None => ret tt end;;
      (if profile_switch connection_profile (current_profile a)
       then
         after (ShowInfo (lit "Profile Switch")
                  (lit "Switching to profile: " ++
                   str_of_profile connection_profile ++ lit " for connection."));;
         after (SetProfileVar (str_of_profile connection_profile));;
         modify (set_current_profile connection_profile);;
         aws_sso_login;;
         emit (Sleep 5)
       else ret tt);;
      let* a := get in
      if negb (profile_truthy (current_profile a))
      then after (ShowWarning (lit "Warning")
                    (lit "No AWS profile selected or available after potential switch."));;
           ret None
      else if negb (truthy (rdp_client (settings a)))
      then after (ShowError (lit "Error")
                    (lit "RDP client not configured. Please update in Settings."));;
           after OpenSettings;;
           ret None
      else if match system env with Darwin => false | _ => true end
              && negb (path_exists env (rdp_client (settings a)))
      then after (ShowError (lit "Error")
                    (lit "RDP client not found. Please update path in Settings."));;
           after OpenSettings;;
           ret None
      else
        let* local_port := lift (allocate_port env (settings a)) in
        let profile := str_of_profile (current_profile a) in
        after (SetStatus (lit "Connecting to " ++ instance_name ++ lit " (" ++
                          instance_id ++ lit ") using profile " ++ profile ++
                          lit "..."));;
        ret (Some (instance_id, local_port, profile))
  end.

(** ** Processes: [subprocess.Popen], [poll], [terminate] *)

Definition Popen (env : Env) (argv : list str) : M nat :=
  match popen env argv with
  | Some e => emit (SpawnFailed argv e);; raise e
  | None =>
      let* a := get in
      let pid := length (procs a) in
      modify (set_procs (procs a ++ [{| p_argv := argv; p_status := Running |}]));;
      emit (Spawn argv pid);;
      ret pid
  end.

(** The status of a process of the table; a pid that is not in the table
    stands for a process long gone. *)
Definition status_of (a : App) (pid : nat) : status :=
  default (Terminated true) (p_status <$> procs a !! pid).

Definition poll (pid : nat) : M (option Z) :=
  let* a := get in ret (poll_status (status_of a pid)).

Definition set_status (pid : nat) (s : status) (ps : list process)
  : list process :=
  alter (fun p => {| p_argv := p_argv p; p_status := s |}) pid ps.

Definition terminate (pid : nat) : M unit :=
  let* a := get in
  emit (Terminate pid);;
  modify (set_procs (set_status pid (terminate_status (status_of a pid)) (procs a))).

(** [time.sleep(2)] after starting the tunnel: by its end the new child
    has exited, or not, as the environment says. *)
Definition grace_wait (env : Env) (pid : nat) : M unit :=
  emit (Sleep 2);;
  match tunnel_exit env with
  | Some (code, err) =>
      let* a := get in modify (set_procs (set_status pid (Exited code err) (procs a)))
  | None => ret tt
  end.

(** Lines 607-610, inside [except Exception]. *)
Definition cleanup : M unit :=
  let* a := get in
  match tunnel_process a with
  | Some pid =>
      let* r := poll pid in
      match r with
      | None => terminate pid;; modify (set_tunnel_process None)
      | Some _ => ret tt
      end
  | None => ret tt
  end.

(** Lines 731-736 of [main], after the main loop has ended. *)
Definition exit_cleanup : M unit :=
  let* a := get in
  match tunnel_process a with
  | Some pid =>
      let* r := poll pid in
      match r with
      | None => terminate pid
      | Some _ => ret tt
      end
  | None => ret tt
  end.

(** ** [setup_and_connect] *)

Definition tunnel_command (instance_id : str) (local_port : Z) (profile : str)
  : list str :=
  [lit "aws"; lit "ec2-instance-connect"; lit "open-tunnel";
   lit "--instance-id"; instance_id;
   lit "--remote-port"; lit "3389";
   lit "--local-port"; str_of_int local_port;
   lit "--profile"; profile].

Definition endpoint (local_port : Z) : str :=
  lit "localhost:" ++ str_of_int local_port.

Definition rdp_file_name (instance_id : str) : str :=
  lit "aws_connect_" ++ instance_id ++ lit ".rdp".

Definition rdp_file_text (local_port : Z) : str :=
  lit "full address:s:" ++ endpoint local_port ++ [10%N] ++
  lit "prompt for credentials:i:1" ++ [10%N].

(** [with open(path, "w") as f: f.write(..); f.write(..)]. *)
Definition write_file (env : Env) (path text : str) : M unit :=
  match open_w env path with
  | Some e => raise e
  | None => emit (WriteFile path text)
  end.

Definition error_creating_rdp_file (file_error : exn) : M unit :=
  after_reading "file_error"
    (SetStatus (lit "Error creating RDP file: " ++ exn_text file_error));;
  after_reading "file_error"
    (ShowError (lit "File Error")
       (lit "Could not create temporary RDP file: " ++ exn_text file_error)).

Definition launch_windows (env : Env) (a : App) (instance_id : str)
    (local_port : Z) : M unit :=
  let temp_dir := default (home env) (environ_TEMP env) in
  let rdp_file := path_join env temp_dir (rdp_file_name instance_id) in
  try_except
    (write_file env rdp_file (rdp_file_text local_port);;
     let* _ := Popen env [rdp_client (settings a); rdp_file] in ret tt)
    error_creating_rdp_file.

(** The three commands tried in turn on macOS. *)
Definition mac_method1 (rdp_file : str) : list str := [lit "open"; rdp_file].
Definition mac_method2 (rdp_file : str) : list str :=
  [lit "open"; lit "-a"; lit "Microsoft Remote Desktop"; rdp_file].
Definition mac_method3 (local_port : Z) : list str :=
  [lit "open"; lit "rdp://full%20address=s:" ++ endpoint local_port].

Definition manual_text (local_port : Z) : str :=
  lit "Please open your RDP client manually and connect to " ++
  endpoint local_port.

Definition method1_failed (e1 : exn) : ui_action :=
  SetStatus (lit "Method 1 failed: " ++ exn_text e1 ++
             lit ", trying method 2...").
Definition method2_failed (e2 : exn) : ui_action :=
  SetStatus (lit "Method 2 failed: " ++ exn_text e2 ++
             lit ", trying method 3...").
Definition all_methods_failed : ui_action :=
  SetStatus (lit "All RDP launch methods failed").

Definition manual_connection (local_port : Z) : ui_action :=
  ShowInfo (lit "Manual Connection Required") (manual_text local_port).

Definition mac_rdp_file (env : Env) (instance_id : str) : str :=
  path_join env (path_join env (home env) (lit ".aws_rdp_connect_temp"))
    (rdp_file_name instance_id).

Definition launch_darwin (env : Env) (instance_id : str) (local_port : Z)
  : M unit :=
  let temp_dir := path_join env (home env) (lit ".aws_rdp_connect_temp") in
  match makedirs env temp_dir with
  | Some e => raise e
  | None =>
    emit (MakeDirs temp_dir);;
    let rdp_file := mac_rdp_file env instance_id in
    try_except
      (write_file env rdp_file (rdp_file_text local_port);;
       try_except
         (let* _ := Popen env (mac_method1 rdp_file) in ret tt)
         (fun e1 =>
            after_reading "e1" (method1_failed e1);;
            try_except
              (let* _ := Popen env (mac_method2 rdp_file) in ret tt)
              (fun e2 =>
                 after_reading "e2" (method2_failed e2);;
                 try_except
                   (let* _ := Popen env (mac_method3 local_port) in ret tt)
                   (fun e3 =>
                      after all_methods_failed;;
                      after (manual_connection local_port)))))
      error_creating_rdp_file
  end.

Definition linux_argument (client : str) (local_port : Z) : str :=
  if contains (lit "rdesktop") client then endpoint local_port
  else if contains (lit "xfreerdp") client then lit "/v:" ++ endpoint local_port
  else endpoint local_port.

Definition launch_linux (env : Env) (a : App) (local_port : Z) : M unit :=
  let client := rdp_client (settings a) in
  try_except
    (let* _ := Popen env [client; linux_argument client local_port] in ret tt)
    (fun e =>
       match exn_kind e with
       | FileNotFoundError =>
           after (SetStatus (lit "RDP client not found at: " ++ client));;
           after (ShowError (lit "Error")
                    (lit "RDP client not found at: " ++ client ++
                     lit ". Please check settings."))
       | _ => raise e
       end).

Definition aws_cli_not_found : str :=
  lit "AWS CLI not found. Please ensure it's installed and in your PATH.".

(** Lines 520-597: what runs once the tunnel is found alive. *)
Definition launch_client (env : Env) (instance_id : str) (local_port : Z)
  : M unit :=
  after (SetStatus (lit "Launching RDP client..."));;
  let* a := get in
  match system env with
  | Windows => launch_windows env a instance_id local_port
  | Darwin => launch_darwin env instance_id local_port
  | OtherSystem => launch_linux env a local_port
  end;;
  after (SetStatus (lit "Connected to " ++ instance_id ++
                    lit " on port " ++ str_of_int local_port)).

(** Lines 514-518: the tunnel process has exited.  The text of the error
    [.decode('utf-8')] raises is the codec's, taken from the environment. *)
Definition tunnel_failed (env : Env) (pid : nat) : M unit :=
  let* a := get in
  let err := stderr_of (status_of a pid) in
  match decode_utf8 err with
  | None => raise (Exn UnicodeDecodeError (decode_error env err))
  | Some text =>
      let stderr := strip text in
      after (SetStatus (lit "Tunnel setup failed: " ++ stderr));;
      after (ShowError (lit "Tunnel Error") stderr)
  end.

(** The two [except] clauses that close [setup_and_connect]. *)
Definition connection_handler (e : exn) : M unit :=
  match exn_kind e with
  | FileNotFoundError =>
      after (SetStatus aws_cli_not_found);;
      after (ShowError (lit "Error") aws_cli_not_found)
  | _ =>
      after_reading "e" (SetStatus (lit "Connection error: " ++ exn_text e));;
      after_reading "e" (ShowError (lit "Connection Error") (exn_text e));;
      (* Clean up if necessary *)
      cleanup
  end.

Definition setting_up (instance_id : str) (local_port : Z) (profile : str)
  : ui_action :=
  SetStatus (lit "Setting up tunnel to " ++ instance_id ++ lit " on port " ++
             str_of_int local_port ++ lit " using profile " ++ profile ++
             lit "...").

Definition setup_and_connect (env : Env) (instance_id : str) (local_port : Z)
    (profile_to_use : str) : M unit :=
  try_except
    (after (setting_up instance_id local_port profile_to_use);;
     (* Start the tunnel process *)
     let* pid := Popen env (tunnel_command instance_id local_port profile_to_use) in
     modify (set_tunnel_process (Some pid));;
     (* Give the tunnel time to initialize *)
     grace_wait env pid;;
     (* Check if tunnel is running *)
     let* r := poll pid in
     match r with
     | Some _ => tunnel_failed env pid
     | None => launch_client env instance_id local_port
     end)
    connection_handler.

(** ** Reading the log *)

(** The [Popen] calls of a log, in order, each with whether it started
    a process. *)
Definition attempt_of (e : effect) : option (list str * bool) :=
  match e with
  | Spawn argv _ => Some (argv, true)
  | SpawnFailed argv _ => Some (argv, false)
  | _ => None
  end.

Definition attempts (l : list effect) : list (list str * bool) :=
  omap attempt_of l.

(** The texts shown by [messagebox.showerror] under a given title. *)
Definition error_texts (title : str) (l : list effect) : list str :=
  omap (fun e => match e with
                 | Ui (ShowError t text) =>
                     if bool_decide (t = title) then Some text else None
                 | _ => None
                 end) l.

(** The processes the code has asked to terminate. *)
Definition terminated_pids (l : list effect) : list nat :=
  omap (fun e => match e with Terminate pid => Some pid | _ => None end) l.

(** The settings documents written to the configuration file. *)
Definition config_writes (l : list effect) : list Settings :=
  omap (fun e => match e with WriteConfig s => Some s | _ => None end) l.

(** [needle] occurs in [hay]. *)
Definition substring (needle hay : str) : Prop :=
  exists pre post, hay = pre ++ needle ++ post.

(** ** Sample environments and states *)

Definition posix_join (a b : str) : str := a ++ lit "/" ++ b.

Definition quiet_env (sys : platform) : Env :=
  {| system := sys; popen := fun _ => None; tunnel_exit := None;
     makedirs := fun _ => None; open_w := fun _ => None;
     path_exists := fun _ => true; path_join := posix_join;
     home := lit "/home/user"; environ_TEMP := None;
     check_output := fun _ => None; randbits := 4242;
     decode_error := fun _ => lit "'utf-8' codec can't decode byte";
     client_exit := fun _ => None |}.

Definition with_tunnel_exit (x : option (Z * bytes)) (env : Env) : Env :=
  {| system := system env; popen := popen env; tunnel_exit := x;
     makedirs := makedirs env; open_w := open_w env;
     path_exists := path_exists env; path_join := path_join env;
     home := home env; environ_TEMP := environ_TEMP env;
     check_output := check_output env; randbits := randbits env;
     decode_error := decode_error env; client_exit := client_exit env |}.

Definition with_popen (f : list str -> option exn) (env : Env) : Env :=
  {| system := system env; popen := f; tunnel_exit := tunnel_exit env;
     makedirs := makedirs env; open_w := open_w env;
     path_exists := path_exists env; path_join := path_join env;
     home := home env; environ_TEMP := environ_TEMP env;
     check_output := check_output env; randbits := randbits env;
     decode_error := decode_error env; client_exit := client_exit env |}.

Definition fresh_app : App :=
  {| aws_profiles := [lit "dev"; lit "prod"];
     current_profile := Some (lit "dev");
     tunnel_process := None;
     settings := default_settings;
     config_file := Missing;
     procs := [];
     log := [] |}.

(** A Linux installation with [xfreerdp] as its client. *)
Definition linux_app : App :=
  set_settings (set_rdp_client (lit "/usr/bin/xfreerdp") default_settings)
    fresh_app.

(** The processes that run a tunnel command and are still running. *)
Definition is_tunnel_command (argv : list str) : bool :=
  bool_decide (take 3 argv
               = [lit "aws"; lit "ec2-instance-connect"; lit "open-tunnel"]).

Definition running (s : status) : bool :=
  match s with
  | Running => true
  | _ => false
  end.

Fixpoint live_from (pid : nat) (ps : list process) : list nat :=
  match ps with
  | [] => []
  | pr :: rest =>
      (if is_tunnel_command (p_argv pr) && running (p_status pr)
       then [pid] else []) ++ live_from (S pid) rest
  end.

Definition live_tunnels (a : App) : list nat := live_from 0 (procs a).

(** ** States, readings of the log and sample inputs used below *)

(** The reading of C3 that the code does not satisfy: every range with
    min >= max is refused. *)
Definition allocation_refuses_min_ge_max : Prop :=
  forall env s,
    fst (local_port_range s) >= snd (local_port_range s) ->
    exists e, allocate_port env s = inl e.

Definition already_saved : ui_action :=
  ShowInfo (lit "Info")
    (lit "This instance is already saved for the current profile.").

(** The state in which [save_instance] has appended the record. *)
Definition with_saved (p : str) (r : pyseq) (a : App) : App :=
  set_settings
    (set_saved_instances
       (<[p := default [] (saved_instances (settings a) !! p) ++ [r]]>
          (saved_instances (settings a)))
       (settings a)) a.

(** What follows the append: the file write, the note, the tree reload. *)
Definition after_append (env : Env) (it : item) (p : str) : M unit :=
  save_settings env;;
  let* name := index (values it) 0 in
  let* iid := index (values it) 1 in
  after (ShowInfo (lit "Success")
           (lit "Instance " ++ name ++ lit " (" ++ iid ++
            lit ") saved for profile " ++ p));;
  after ReloadTree.

Definition sample_item : item :=
  {| values := [lit "web"; lit "i-0001"; lit "running"; lit "t3.micro";
                lit "10.0.0.5"];
     tags := [] |}.

(** The state after [terminate pid]. *)
Definition terminated (pid : nat) (a : App) : App :=
  set_procs (set_status pid (terminate_status (status_of a pid)) (procs a))
    (add_log (Terminate pid) a).

(** The tunnel handle refers to no process that could still be running:
    there is none, or [poll()] has an exit code for it. *)
Definition tunnel_gone (a : App) : Prop :=
  match tunnel_process a with
  | Some pid => poll_status (status_of a pid) <> None
  | None => True
  end.

(** The rebuild of the first start: the client guess, then the write. *)
Definition rebuild (env : Env) : M unit :=
  detect_rdp_client env;; save_settings env.

(** The client [detect_rdp_client] settles on, given the one in place. *)
Definition client_guess (env : Env) (current : str) : str :=
  match system env with
  | Windows => lit "mstsc.exe"
  | Darwin =>
      if path_exists env (lit "/Applications/Microsoft Remote Desktop.app")
      then lit "Microsoft Remote Desktop" else []
  | OtherSystem =>
      default current (first_found env [lit "rdesktop"; lit "xfreerdp"])
  end.

Definition failed_to_load (e : exn) : ui_action :=
  ShowWarning (lit "Settings Error")
    (lit "Failed to load settings: " ++ exn_text e).

(** The reading of C9 that the code does not satisfy: an unreadable
    file is handled like a missing one. *)
Definition unreadable_file_rebuilds : Prop :=
  forall env a e,
    makedirs env (config_dir env) = None ->
    config_file a = Unreadable e ->
    settings (snd (load_settings env a))
      = settings (snd (load_settings env (set_config_file Missing a))).

Definition json_error : exn :=
  Exn ValueError (lit "Expecting value: line 1 column 1 (char 0)").

(** The state once the tunnel process is started and stored in the handle
    and the two-second wait is over, the process still running. *)
Definition started (instance_id : str) (local_port : Z) (profile : str)
    (a : App) : App :=
  let cmd := tunnel_command instance_id local_port profile in
  add_log (Sleep 2)
    (set_tunnel_process (Some (length (procs a)))
       (add_log (Spawn cmd (length (procs a)))
          (set_procs (procs a ++ [{| p_argv := cmd; p_status := Running |}])
             (add_log (Ui (setting_up instance_id local_port profile)) a)))).

(** The same state when the process has exited during the wait. *)
Definition exited_in (pid : nat) (code : Z) (err : bytes) (a : App) : App :=
  set_procs (set_status pid (Exited code err) (procs a)) a.

(** The reading of C5 that the code does not satisfy: the text shown for
    a failed tunnel is the text of the error stream as it was written. *)
Definition diagnostic_is_error_stream : Prop :=
  forall env i p prof a code err text,
    popen env (tunnel_command i p prof) = None ->
    tunnel_exit env = Some (code, err) ->
    decode_utf8 err = Some text ->
    error_texts (lit "Tunnel Error")
      (log (snd (setup_and_connect env i p prof a)))
      = error_texts (lit "Tunnel Error") (log a) ++ [text].

Definition failing_tunnel_env : Env :=
  with_tunnel_exit (Some (1, blit "boom" ++ [x0a])) (quiet_env OtherSystem).

(** The [Popen] calls a run makes after the one that starts its tunnel. *)
Definition launch_attempts (a a' : App) : list (list str * bool) :=
  drop (S (length (attempts (log a)))) (attempts (log a')).




Definition starts (env : Env) (argv : list str) : bool :=
  match popen env argv with
  | None => true
  | Some _ => false
  end.


Definition preserves {A} (P : App -> Prop) (m : M A) : Prop :=
  forall a, P a -> P (snd (m a)).

(** The earlier processes [ps] are as they were, the handle is the new
    process or empty, and nothing but the new process has been asked to
    terminate beyond the requests [asked] made before. *)
Definition kept (ps : list process) (asked : list nat) (a : App) : Prop :=
  (forall pid, (pid < length ps)%nat -> procs a !! pid = ps !! pid) /\
  (tunnel_process a = Some (length ps) \/ tunnel_process a = None) /\
  (forall pid, pid ∈ terminated_pids (log a) ->
     pid ∈ asked \/ pid = length ps).

(** The reading of C1 that the code does not satisfy: a run that starts
    its tunnel has asked the earlier live tunnel to terminate, and that
    tunnel no longer runs. *)
Definition prior_tunnel_is_terminated : Prop :=
  forall env i p prof a old,
    tunnel_process a = Some old -> status_of a old = Running ->
    popen env (tunnel_command i p prof) = None ->
    let a' := snd (setup_and_connect env i p prof a) in
    old ∈ terminated_pids (log a') /\ status_of a' old <> Running.

Definition connected_once : App :=
  snd (setup_and_connect (quiet_env OtherSystem) (lit "i-0001") 9800
         (lit "dev") linux_app).

Definition connected_twice : App :=
  snd (setup_and_connect (quiet_env OtherSystem) (lit "i-0002") 9801
         (lit "dev") connected_once).

(** The application object at the next start, before [load_settings]
    runs: the defaults of [__init__], the settings file as the previous run
    has left it, and the same profile selected again. *)
Definition next_start (a : App) : App :=
  {| aws_profiles := aws_profiles a;
     current_profile := current_profile a;
     tunnel_process := None;
     settings := default_settings;
     config_file := config_file a;
     procs := [];
     log := [] |}.

(** The state after a restart: the saved record has come back from
    [json.load] as a list. *)
Definition reloaded_app : App :=
  set_settings
    (set_saved_instances {[ lit "dev" := [PyList (values sample_item)] ]}
       default_settings)
    fresh_app.

(** * The rest of the window: profiles, instances, settings dialog *)

(** ** JSON documents as [json.loads] returns them *)

Local Set Warnings "-register-all".

Inductive json :=
  | JNull
  | JBool (b : bool)
  | JNumber (text : str)
  | JString (s : str)
  | JArray (items : list json)
  | JObject (fields : list (str * json)).   (* a dict: the keys are distinct *)

(** [d[key]] of a dict given by its items. *)
Fixpoint lookup_field (key : str) (fields : list (str * json)) : option json :=
  match fields with
  | [] => None
  | (k, v) :: rest =>
      if bool_decide (k = key) then Some v else lookup_field key rest
  end.

(** [v.get(key, dflt)]: only a dict has the method. *)
Definition py_get (v : json) (key : str) (dflt : json) : exn + json :=
  match v with
  | JObject fields => inr (default dflt (lookup_field key fields))
  | _ => inl (Exn OtherException (lit "object has no attribute 'get'"))
  end.

(** [for x in v]: the items of a list, the keys of a dict, the characters
    of a string; anything else is not iterable. *)
Definition py_iter (v : json) : exn + list json :=
  match v with
  | JArray items => inr items
  | JObject fields => inr ((fun kv => JString (fst kv)) <$> fields)
  | JString s => inr ((fun c => JString [c]) <$> s)
  | _ => inl (Exn OtherException (lit "object is not iterable"))
  end.

(** [v == "Name"]. *)
Definition is_name (v : json) : bool :=
  match v with
  | JString s => bool_decide (s = lit "Name")
  | _ => false
  end.

(** The loop over [instance.get("Tags", [])]: the value of the first tag
    whose key is ["Name"], the empty string when there is none. *)
Fixpoint name_of_tags (tags : list json) : exn + json :=
  match tags with
  | [] => inr (JString [])
  | tag :: rest =>
      match py_get tag (lit "Key") JNull with
      | inl e => inl e
      | inr k =>
          if is_name k then py_get tag (lit "Value") (JString [])
          else name_of_tags rest
      end
  end.

Definition sum_bind {A B} (r : exn + A) (k : A -> exn + B) : exn + B :=
  match r with
  | inl e => inl e
  | inr x => k x
  end.

(** One pass of the inner loop body (lines 294-306): the row of an
    instance, in the order name, id, state, type, private address. *)
Definition instance_row (instance : json) : exn + list json :=
  sum_bind (py_get instance (lit "InstanceId") (JString [])) (fun instance_id =>
  sum_bind (py_get instance (lit "State") (JObject [])) (fun state =>
  sum_bind (py_get state (lit "Name") (JString [])) (fun instance_state =>
  sum_bind (py_get instance (lit "InstanceType") (JString [])) (fun instance_type =>
  sum_bind (py_get instance (lit "PrivateIpAddress") (JString [])) (fun private_ip =>
  sum_bind (py_get instance (lit "Tags") (JArray [])) (fun tags =>
  sum_bind (py_iter tags) (fun tag_list =>
  sum_bind (name_of_tags tag_list) (fun name =>
  inr [name; instance_id; instance_state; instance_type; private_ip])))))))).

(** [rows] is the list [instances] built so far. *)
Fixpoint rows_of_instances (instances : list json) (rows : list (list json))
  : exn + list (list json) :=
  match instances with
  | [] => inr rows
  | instance :: rest =>
      sum_bind (instance_row instance) (fun row =>
      rows_of_instances rest (rows ++ [row]))
  end.

Fixpoint rows_of_reservations (reservations : list json)
    (rows : list (list json)) : exn + list (list json) :=
  match reservations with
  | [] => inr rows
  | reservation :: rest =>
      sum_bind (py_get reservation (lit "Instances") (JArray [])) (fun v =>
      sum_bind (py_iter v) (fun instances =>
      sum_bind (rows_of_instances instances rows) (fun rows' =>
      rows_of_reservations rest rows')))
  end.

(** Lines 288-306: the rows read off the output of [describe-instances]. *)
Definition extract_instances (data : json) : exn + list (list json) :=
  sum_bind (py_get data (lit "Reservations") (JArray [])) (fun v =>
  sum_bind (py_iter v) (fun reservations =>
  rows_of_reservations reservations [])).

(** ** The widgets *)

(** A row of the tree view. *)
Record row := { cells : list json; row_tags : list str }.

Record Gui := {
  the_app : App;
  profile_var : str;                   (* the variable of the profile combobox *)
  combo_values : list str;             (* profile_combo['values'] *)
  tree : list row;                     (* the rows of the tree, in order *)
  ec2_instances : list (list json);
  load_button : bool;                  (* enabled *)
  dialog_open : bool                   (* the settings window exists *)
}.

Definition set_app (a : App) (g : Gui) : Gui :=
  {| the_app := a; profile_var := profile_var g; combo_values := combo_values g;
     tree := tree g; ec2_instances := ec2_instances g;
     load_button := load_button g; dialog_open := dialog_open g |}.

Definition set_profile_var (p : str) (g : Gui) : Gui :=
  {| the_app := the_app g; profile_var := p; combo_values := combo_values g;
     tree := tree g; ec2_instances := ec2_instances g;
     load_button := load_button g; dialog_open := dialog_open g |}.

Definition set_combo_values (l : list str) (g : Gui) : Gui :=
  {| the_app := the_app g; profile_var := profile_var g; combo_values := l;
     tree := tree g; ec2_instances := ec2_instances g;
     load_button := load_button g; dialog_open := dialog_open g |}.

Definition set_tree (t : list row) (g : Gui) : Gui :=
  {| the_app := the_app g; profile_var := profile_var g; combo_values := combo_values g;
     tree := t; ec2_instances := ec2_instances g;
     load_button := load_button g; dialog_open := dialog_open g |}.

Definition set_ec2_instances (l : list (list json)) (g : Gui) : Gui :=
  {| the_app := the_app g; profile_var := profile_var g; combo_values := combo_values g;
     tree := tree g; ec2_instances := l;
     load_button := load_button g; dialog_open := dialog_open g |}.

Definition set_load_button (b : bool) (g : Gui) : Gui :=
  {| the_app := the_app g; profile_var := profile_var g; combo_values := combo_values g;
     tree := tree g; ec2_instances := ec2_instances g;
     load_button := b; dialog_open := dialog_open g |}.

Definition set_dialog_open (b : bool) (g : Gui) : Gui :=
  {| the_app := the_app g; profile_var := profile_var g; combo_values := combo_values g;
     tree := tree g; ec2_instances := ec2_instances g;
     load_button := load_button g; dialog_open := b |}.

Definition set_aws_profiles (l : list str) (a : App) : App :=
  {| aws_profiles := l; current_profile := current_profile a;
     tunnel_process := tunnel_process a; settings := settings a;
     config_file := config_file a; procs := procs a; log := log a |}.

Definition set_default_profile (p : str) (s : Settings) : Settings :=
  {| rdp_client := rdp_client s; default_profile := p;
     saved_instances := saved_instances s;
     local_port_range := local_port_range s |}.

(** What [subprocess.run] returns: the exit code, [json.loads] of the
    output (or its exception), and the text of the error stream. *)
Record completed := {
  returncode : Z;
  stdout_json : exn + json;
  stderr_text : str
}.

(** The AWS side: the sections of [~/.aws/config] as [ConfigParser] reads
    them (or the exception of [read]), and the outcome of running a
    command to its end. *)
Record Aws := {
  config_sections : exn + list str;
  run_command : list str -> exn + completed
}.

(** ** Methods over the widgets *)

Definition GM (A : Type) : Type := Gui -> (exn + A) * Gui.

Definition gret {A} (x : A) : GM A := fun g => (inr x, g).
Definition graise {A} (e : exn) : GM A := fun g => (inl e, g).
Definition gbind {A B} (m : GM A) (k : A -> GM B) : GM B :=
  fun g => match m g with
           | (inr x, g') => k x g'
           | (inl e, g') => (inl e, g')
           end.
Definition gget : GM Gui := fun g => (inr g, g).
Definition gmodify (f : Gui -> Gui) : GM unit := fun g => (inr tt, f g).
Definition gtry {A} (m : GM A) (h : exn -> GM A) : GM A :=
  fun g => match m g with
           | (inl e, g') => h e g'
           | r => r
           end.

(** A method of the application object run inside the window. *)
Definition on_app {A} (m : M A) : GM A :=
  fun g => let '(r, a') := m (the_app g) in (r, set_app a' g).

(** [try: .. finally: f]. *)
Definition gfinally {A} (m : GM A) (f : GM unit) : GM A :=
  fun g => match m g with
           | (r, g') =>
               match f g' with
               | (inr _, g'') => (r, g'')
               | (inl e, g'') => (inl e, g'')
               end
           end.

Declare Scope gui_scope.
Delimit Scope gui_scope with gui.
Notation "'let*' x ':=' m 'in' k" := (gbind m (fun x => k))
  (at level 10, x name, m at level 100, k at level 200) : gui_scope.
Notation "m1 ;; m2" := (gbind m1 (fun _ => m2))
  (at level 100, m2 at level 200, right associativity) : gui_scope.
Local Open Scope gui_scope.

Definition gafter (u : ui_action) : GM unit := on_app (after u).
Definition gafter_reading (reads : string) (u : ui_action) : GM unit :=
  on_app (after_reading reads u).

(** ** [refresh_profiles], [on_profile_selected] *)

Definition aws_config_path (env : Env) : str :=
  path_join env (path_join env (home env) (lit ".aws")) (lit "config").

(** The loop over [aws_config.sections()]. *)
Fixpoint profiles_of_sections (sections : list str) : list str :=
  match sections with
  | [] => []
  | section :: rest =>
      if startswith (lit "profile ") section
      then drop 8 section :: profiles_of_sections rest
      else profiles_of_sections rest
  end.

Definition refresh_profiles (env : Env) (aws : Aws) : GM unit :=
  on_app (modify (set_aws_profiles []));;
  gafter (SetStatus (lit "Loading AWS profiles..."));;
  gtry
    ((if path_exists env (aws_config_path env)
      then match config_sections aws with
           | inl e => graise e
           | inr sections =>
               on_app (modify (set_aws_profiles (profiles_of_sections sections)))
           end
      else gret tt);;
     let* g := gget in
     gmodify (set_combo_values (aws_profiles (the_app g)));;
     match aws_profiles (the_app g) with
     | first :: _ =>
         (if bool_decide (profile_var g ∈ aws_profiles (the_app g))
          then gret tt
          else gmodify (set_profile_var first));;
         let* g := gget in
         on_app (modify (set_current_profile (Some (profile_var g))));;
         gafter (SetStatus (lit "Loaded " ++
                            str_of_int (Z.of_nat (length (aws_profiles (the_app g)))) ++
                            lit " AWS profiles"))
     | [] =>
         on_app (modify (set_current_profile None));;
         gmodify (set_profile_var []);;
         gafter (SetStatus (lit "No standard AWS profiles found. Check your AWS CLI configuration."))
     end)
    (fun e =>
       gafter (SetStatus (lit "Error loading profiles: " ++ exn_text e));;
       gafter (ShowError (lit "Error")
                 (lit "Failed to load AWS profiles: " ++ exn_text e))).


(** ** [load_saved_instances] *)

Definition seq_items (r : pyseq) : list str :=
  match r with
  | PyTuple items => items
  | PyList items => items
  end.

(** The rows inserted for one profile of the saved instances. *)
Definition saved_rows (profiles : list str) (entry : str * list pyseq)
  : list row :=
  if bool_decide (fst entry ∈ profiles)
  then (fun instance =>
          {| cells := JString <$> seq_items instance;
             row_tags := [fst entry] |}) <$> snd entry
  else [].

(** The profiles are taken in the order in which the map enumerates them,
    which is not the insertion order of the Python [dict]: the properties
    below speak of the rows of the tree, not of their order across
    profiles.  The line printed for an unknown profile is not part of the
    state. *)
Definition load_saved_instances : GM unit :=
  gmodify (set_tree []);;
  let* g := gget in
  gmodify (set_tree
             (mjoin (saved_rows (aws_profiles (the_app g)) <$>
                       map_to_list (saved_instances (settings (the_app g)))))).

(** ** [load_instances], its thread and [update_instances_tree] *)





(** ** The thread of [aws_sso_login] *)

Definition sso_login (profile : option str) : list str :=
  [lit "aws"; lit "sso"; lit "login"; lit "--profile"; str_of_profile profile].

(** [try: .. finally: f] for a method of the application object. *)
Definition finally {A} (m : M A) (f : M unit) : M A :=
  fun a => match m a with
           | (r, a') =>
               match f a' with
               | (inr _, a'') => (r, a'')
               | (inl e, a'') => (inl e, a'')
               end
           end.

Definition login_thread (aws : Aws) : M unit :=
  finally
   (try_except
    (let* a := get in
     match run_command aws (sso_login (current_profile a)) with
     | inl e => raise e
     | inr result =>
         if (returncode result =? 0)%Z
         then after (SetStatus (lit "AWS SSO login successful"))
         else
           after (SetStatus (lit "AWS SSO login failed: " ++
                             strip (stderr_text result)));;
           after (ShowError (lit "Login Failed") (strip (stderr_text result)))
     end)%py
    (fun e =>
       match exn_kind e with
       | FileNotFoundError =>
           after (SetStatus aws_cli_not_found);;
           after (ShowError (lit "Error") aws_cli_not_found)
       | _ =>
           after_reading "e"
             (SetStatus (lit "AWS SSO login error: " ++ exn_text e));;
           after_reading "e" (ShowError (lit "Login Error") (exn_text e))
       end)%py)
   (after (LoginButton true)).

(** ** [save_settings_dialog] *)

Definition invalid_port_range : ui_action :=
  ShowError (lit "Error")
    (lit "Invalid port range. Please use ports between 1024 and 65535, with min < max.").

Definition save_settings_dialog (env : Env) (client profile : str)
    (min_port max_port : Z) : GM unit :=
  gtry
    (if (min_port <? 1024) || (65535 <? min_port) || (max_port <? 1024) ||
        (65535 <? max_port) || (max_port <=? min_port)
     then gafter invalid_port_range
     else
       on_app (modify (fun a =>
         set_settings
           (set_local_port_range (min_port, max_port)
              (set_default_profile profile
                 (set_rdp_client client (settings a)))) a));;
       on_app (save_settings env);;
       gmodify (set_dialog_open false);;
       gafter (SetStatus (lit "Settings saved successfully"));;
       let* g := gget in
       match aws_profiles (the_app g) with
       | [] => gret tt
       | first :: _ =>
           gmodify (set_combo_values (aws_profiles (the_app g)));;
           if bool_decide (default_profile (settings (the_app g))
                           ∈ aws_profiles (the_app g))
           then
             gmodify (set_profile_var (default_profile (settings (the_app g))));;
             on_app (modify (set_current_profile
                               (Some (default_profile (settings (the_app g))))))
           else if bool_decide (profile_var g ∈ aws_profiles (the_app g))
           then gret tt
           else
             gmodify (set_profile_var first);;
             on_app (modify (set_current_profile (Some first)))
       end)
    (fun e =>
       gafter (ShowError (lit "Error")
                 (lit "Failed to save settings: " ++ exn_text e))).

(** ** [__init__] and [main] *)

(** The object as [__init__] sets it up before [load_settings]: the
    settings file and the processes are what the system holds. *)
Definition initial_gui (file : file_state) (ps : list process) : Gui :=
  {| the_app := {| aws_profiles := []; current_profile := None;
               tunnel_process := None; settings := default_settings;
               config_file := file; procs := ps; log := [] |};
     profile_var := []; combo_values := []; tree := [];
     ec2_instances := []; load_button := true; dialog_open := false |}.


Close Scope gui_scope.

(** ** Readings used by the further properties *)

(** What [connect_rdp] leaves alone: the processes, the tunnel handle,
    the settings and their file, the profile list; it starts and
    terminates no process and writes no settings. *)
Definition untouched (a0 a : App) : Prop :=
  procs a = procs a0 /\ tunnel_process a = tunnel_process a0 /\
  settings a = settings a0 /\ config_file a = config_file a0 /\
  aws_profiles a = aws_profiles a0 /\
  attempts (log a) = attempts (log a0) /\
  terminated_pids (log a) = terminated_pids (log a0) /\
  config_writes (log a) = config_writes (log a0).

(** The effects that concern neither processes nor files. *)
Definition quiet_effect (e : effect) : bool :=
  match e with
  | Ui _ | Sleep _ | StartLoginThread _ => true
  | _ => false
  end.

(** The profiles for which a login thread was started. *)
Definition logins (l : list effect) : list str :=
  omap (fun e => match e with StartLoginThread p => Some p | _ => None end) l.

Definition sample_row : item :=
  {| values := values sample_item; tags := [lit "prod"] |}.

Definition missing_aws (argv : list str) : option exn :=
  Some (Exn FileNotFoundError (lit "[Errno 2] No such file or directory: 'aws'")).

Definition busy_port (argv : list str) : option exn :=
  Some (Exn OtherException (lit "[Errno 13] Permission denied: 'aws'")).

Definition connected_status (instance_id : str) (local_port : Z) : ui_action :=
  SetStatus (lit "Connected to " ++ instance_id ++ lit " on port " ++
             str_of_int local_port).

Definition windows_rdp_file (env : Env) (instance_id : str) : str :=
  path_join env (default (home env) (environ_TEMP env))
    (rdp_file_name instance_id).

Definition file_error (e : exn) : ui_action :=
  ShowError (lit "File Error")
    (lit "Could not create temporary RDP file: " ++ exn_text e).

Definition windows_app : App :=
  set_settings (set_rdp_client (lit "mstsc.exe") default_settings) fresh_app.

Definition client_not_found (client : str) : ui_action :=
  ShowError (lit "Error")
    (lit "RDP client not found at: " ++ client ++ lit ". Please check settings.").

Definition nothing_opens (argv : list str) : option exn :=
  if bool_decide (argv !! 0%nat = Some (lit "open"))
  then Some (Exn OtherException (lit "[Errno 13] Permission denied: 'open'"))
  else None.

(** What the [try] block of [refresh_profiles] reads: the profiles of the
    configuration file, none when there is no file, or the exception. *)
Definition read_profiles (env : Env) (aws : Aws) : exn + list str :=
  if path_exists env (aws_config_path env)
  then match config_sections aws with
       | inl e => inl e
       | inr sections => inr (profiles_of_sections sections)
       end
  else inr [].

Definition failed_to_load_profiles (e : exn) : ui_action :=
  ShowError (lit "Error") (lit "Failed to load AWS profiles: " ++ exn_text e).

Definition two_profiles : Aws :=
  {| config_sections := inr [lit "default"; lit "profile dev"; lit "profile prod"];
     run_command := fun _ => inl (Exn FileNotFoundError (lit "aws")) |}.

Definition broken_config : Aws :=
  {| config_sections :=
       inl (Exn OtherException (lit "File contains no section headers."));
     run_command := fun _ => inl (Exn FileNotFoundError (lit "aws")) |}.

Definition known_profiles_gui : Gui :=
  set_profile_var (lit "dev")
    (set_app (set_current_profile (Some (lit "dev"))
                (set_aws_profiles [lit "dev"; lit "prod"]
                   (the_app (initial_gui Missing []))))
       (initial_gui Missing [])).

(** The row shown for a saved record of a profile. *)
Definition saved_row (profile : str) (instance : pyseq) : row :=
  {| cells := JString <$> seq_items instance; row_tags := [profile] |}.

Definition reloaded_gui : Gui := set_app reloaded_app (initial_gui Missing []).

Definition web_instance : json :=
  JObject [(lit "InstanceId", JString (lit "i-0001"));
           (lit "State", JObject [(lit "Name", JString (lit "running"))]);
           (lit "Tags", JArray [JObject [(lit "Key", JString (lit "env"));
                                         (lit "Value", JString (lit "test"))];
                                JObject [(lit "Key", JString (lit "Name"));
                                         (lit "Value", JString (lit "web"))]])].

Definition bare_instance : json := JObject [(lit "InstanceId", JString (lit "i-0002"))].

Definition sample_document : json :=
  JObject [(lit "Reservations",
            JArray [JObject [(lit "OwnerId", JString (lit "1234"));
                             (lit "Instances", JArray [web_instance])];
                    JObject [(lit "Instances", JArray [bare_instance])]])].

Definition sample_rows : list (list json) :=
  [[JString (lit "web"); JString (lit "i-0001"); JString (lit "running");
    JString []; JString []];
   [JString []; JString (lit "i-0002"); JString []; JString []; JString []]].





(** The error boxes a log asks for, at once or through a callback that
    reads a name bound by an [except] clause. *)
Definition error_box_of (e : effect) : option (str * str) :=
  match e with
  | Ui (ShowError title text) => Some (title, text)
  | Callback _ (ShowError title text) => Some (title, text)
  | _ => None
  end.

Definition error_boxes (l : list effect) : list (str * str) :=
  omap error_box_of l.

(** The login command ran and ended with exit code 0. *)
Definition login_succeeds (aws : Aws) (profile : option str) : bool :=
  match run_command aws (sso_login profile) with
  | inr result => (returncode result =? 0)%Z
  | inl _ => false
  end.

(** * Properties *)

(** One step of symbolic execution in the monad. *)
Ltac run :=
  cbn [bind get ret raise modify emit after after_reading try_except lift
       negb andb orb truthy_list fst snd default poll_status].


(** ** Port allocation *)

Lemma randbelow_bounds (env : Env) (n : Z) :
  0 < n -> 0 <= randbelow env n < n.
Proof. intros Hn. unfold randbelow. apply Z.mod_pos_bound, Hn. Qed.

Lemma randint_ok (env : Env) (a b : Z) :
  a <= b -> randint env a b = inr (a + randbelow env (b + 1 - a)).
Proof.
  intros Hab. unfold randint, randrange.
  destruct (Z.ltb_spec 0 (b + 1 - a)) as [_|Hle]; [reflexivity | lia].
Qed.

Lemma randint_empty (env : Env) (a b : Z) :
  b < a -> randint env a b = inl (Exn ValueError (lit "empty range for randrange()")).
Proof.
  intros Hab. unfold randint, randrange.
  destruct (Z.ltb_spec 0 (b + 1 - a)) as [Hlt|_]; [lia | reflexivity].
Qed.

(** C2: for every port range with min < max, port allocation returns an
    integer [v] with min <= v <= max, both bounds included. *)
Theorem allocate_port_within_range (env : Env) (s : Settings) :
  fst (local_port_range s) < snd (local_port_range s) ->
  exists v, allocate_port env s = inr v /\
            fst (local_port_range s) <= v <= snd (local_port_range s).
Proof.
  intros Hlt. unfold allocate_port.
  destruct (local_port_range s) as [lo hi]; simpl in *.
  rewrite randint_ok by lia.
  eexists; split; [reflexivity|].
  pose proof (randbelow_bounds env (hi + 1 - lo)). lia.
Qed.

Lemma allocate_port_within_range_default :
  exists v, allocate_port (quiet_env OtherSystem) default_settings = inr v /\
            9800 <= v <= 9900.
Proof.
  apply (allocate_port_within_range (quiet_env OtherSystem) default_settings).
  simpl. lia.
Defined.

(** A range of one port is served: [random.randint(9800, 9800)] is 9800. *)
Lemma allocate_port_single_port :
  allocate_port (quiet_env OtherSystem)
    (set_local_port_range (9800, 9800) default_settings) = inr 9800
  /\ ~ allocation_refuses_min_ge_max.
Proof.
  split; [reflexivity|].
  intros Hclaim.
  destruct (Hclaim (quiet_env OtherSystem)
              (set_local_port_range (9800, 9800) default_settings))
    as [e He]; [simpl; lia | discriminate He].
Qed.

(** C3, amended: port allocation fails exactly when min > max, the
    failure being the [ValueError] of [random.randint]; a range with
    min = max yields that one port. *)
Theorem allocate_port_fails_iff_reversed (env : Env) (s : Settings) :
  ((exists e, allocate_port env s = inl e) <->
   snd (local_port_range s) < fst (local_port_range s)) /\
  (forall e, allocate_port env s = inl e -> exn_kind e = ValueError) /\
  (fst (local_port_range s) = snd (local_port_range s) ->
   allocate_port env s = inr (fst (local_port_range s))).
Proof.
  unfold allocate_port. destruct (local_port_range s) as [lo hi]; simpl.
  destruct (Z.lt_ge_cases hi lo) as [Hrev|Hle].
  - rewrite randint_empty by assumption. repeat split.
    + intros _. exact Hrev.
    + intros _. eexists; reflexivity.
    + intros e [= <-]. reflexivity.
    + lia.
  - rewrite randint_ok by assumption. repeat split.
    + intros [e He]. discriminate He.
    + lia.
    + intros e He. discriminate He.
    + intros ->. f_equal. unfold randbelow.
      replace (hi + 1 - hi) with 1 by lia. rewrite Z.mod_1_r. lia.
Qed.

(** ** Profile resolution *)

Lemma profile_truthy_Some (p : option str) :
  profile_truthy p = true -> exists s, p = Some s /\ truthy s = true.
Proof. destruct p as [s|]; simpl; [eauto | discriminate]. Qed.


(** The two worked cases of the resolver: a saved instance of a known
    profile switches to it; a stale tag keeps the active profile. *)
Example resolve_profile_prod :
  resolve_profile (Some (lit "dev")) [lit "prod"] [lit "prod"; lit "dev"]
    = (Some (lit "prod"), None)
  /\ profile_switch (Some (lit "prod")) (Some (lit "dev")) = true.
Proof. split; reflexivity. Qed.

Example resolve_profile_stale :
  resolve_profile (Some (lit "dev")) [lit "stale"] [lit "prod"; lit "dev"]
    = (Some (lit "dev"),
       Some (profile_not_found (lit "stale") (Some (lit "dev"))))
  /\ profile_switch (Some (lit "dev")) (Some (lit "dev")) = false.
Proof. split; reflexivity. Qed.

(** ** Saved instances *)

Lemma set_saved_instances_same (s : Settings) :
  set_saved_instances (saved_instances s) s = s.
Proof. destruct s; reflexivity. Qed.

Lemma set_settings_same (a : App) : set_settings (settings a) a = a.
Proof. destruct a; reflexivity. Qed.

(** Saving an instance that is in the profile's list only shows a note. *)
Lemma save_instance_present env it rest p l (a : App) :
  current_profile a = Some p -> truthy p = true -> values it <> [] ->
  saved_instances (settings a) !! p = Some l ->
  PyTuple (values it) ∈ l ->
  save_instance env (it :: rest) a = (inr tt, add_log (Ui already_saved) a).
Proof.
  intros Hcur Hp Hval Hl Hin. unfold save_instance.
  destruct (values it) as [|v vs] eqn:Ev; [done|]. run.
  rewrite Hcur, Hp. run. rewrite Hl.
  rewrite set_saved_instances_same, set_settings_same, Hl. run.
  rewrite bool_decide_eq_true_2 by exact Hin. reflexivity.
Qed.

Lemma save_instance_absent env it rest p (a : App) :
  current_profile a = Some p -> truthy p = true -> values it <> [] ->
  PyTuple (values it) ∉ default [] (saved_instances (settings a) !! p) ->
  save_instance env (it :: rest) a
    = after_append env it p (with_saved p (PyTuple (values it)) a).
Proof.
  intros Hcur Hp Hval Hin. unfold save_instance.
  destruct (values it) as [|v vs] eqn:Ev; [done|]. run.
  rewrite Hcur, Hp. run.
  unfold after_append, with_saved. rewrite Ev.
  destruct (saved_instances (settings a) !! p) as [l|] eqn:Hl; run.
  - rewrite set_saved_instances_same, set_settings_same, Hl. run.
    rewrite bool_decide_eq_false_2 by exact Hin. run. reflexivity.
  - rewrite lookup_insert_eq. run.
    rewrite bool_decide_eq_false_2 by exact Hin. run.
    cbn [settings set_settings saved_instances set_saved_instances].
    rewrite insert_insert_eq.
    reflexivity.
Qed.

Lemma after_append_frame env it p (a : App) :
  let a' := snd (after_append env it p a) in
  settings a' = settings a /\ current_profile a' = current_profile a /\
  config_writes (log a') =
    config_writes (log a) ++
    match open_w env (config_path env) with
    | None => [settings a]
    | Some _ => []
    end.
Proof.
  unfold after_append, save_settings, index, after, emit, modify, bind, get,
    ret, raise.
  destruct (open_w env (config_path env)); simpl;
    destruct (values it !! 0%nat); simpl;
    try destruct (values it !! 1%nat); simpl;
    unfold config_writes; rewrite ?omap_app; simpl;
    rewrite ?app_nil_r, <- ?app_assoc; auto.
Qed.

Lemma config_writes_add_ui (a : App) (u : ui_action) :
  config_writes (log (add_log (Ui u) a)) = config_writes (log a).
Proof.
  unfold config_writes. cbn [log add_log]. rewrite omap_app. cbn.
  apply app_nil_r.
Qed.

(** Within one run of the application: saving a row whose tuple is in the
    list of the current profile leaves the settings as they are, appends
    nothing and does not rewrite the settings file; saving one whose tuple
    is not there appends it once at the end of that profile's list; and a
    second save of the same row in the same run changes nothing more. *)
Lemma save_instance_idempotent env it rest p (a : App) :
  current_profile a = Some p -> truthy p = true -> values it <> [] ->
  let r := PyTuple (values it) in
  let old := default [] (saved_instances (settings a) !! p) in
  let a1 := snd (save_instance env (it :: rest) a) in
  let a2 := snd (save_instance env (it :: rest) a1) in
  (r ∈ old ->
     settings a1 = settings a /\ config_file a1 = config_file a /\
     config_writes (log a1) = config_writes (log a)) /\
  (r ∉ old ->
     saved_instances (settings a1)
       = <[p := old ++ [r]]> (saved_instances (settings a))) /\
  settings a2 = settings a1 /\ config_file a2 = config_file a1 /\
  config_writes (log a2) = config_writes (log a1).
Proof.
  intros Hcur Hp Hval r old a1 a2.
  assert (Hpresent : forall b l,
             current_profile b = Some p ->
             saved_instances (settings b) !! p = Some l -> r ∈ l ->
             let b' := snd (save_instance env (it :: rest) b) in
             settings b' = settings b /\ config_file b' = config_file b /\
             config_writes (log b') = config_writes (log b)).
  { intros b l Hb Hl Hin. cbn zeta.
    rewrite (save_instance_present env it rest p l b Hb Hp Hval Hl Hin).
    cbn [snd]. rewrite config_writes_add_ui. done. }
  destruct (decide (r ∈ old)) as [Hin|Hnin].
  - subst old. destruct (saved_instances (settings a) !! p) as [l|] eqn:Hl;
      [|by apply elem_of_nil in Hin].
    destruct (Hpresent a l Hcur Hl Hin) as (Hs & Hf & Hw). fold a1 in Hs, Hf, Hw.
    split; [done|]. split; [done|].
    assert (Hcur1 : current_profile a1 = Some p).
    { subst a1. rewrite (save_instance_present env it rest p l a) by done.
      exact Hcur. }
    assert (Hl1 : saved_instances (settings a1) !! p = Some l)
      by (rewrite Hs; exact Hl).
    exact (Hpresent a1 l Hcur1 Hl1 Hin).
  - pose proof (after_append_frame env it p (with_saved p r a)) as Hframe.
    cbn zeta in Hframe. subst r.
    rewrite <- (save_instance_absent env it rest p a Hcur Hp Hval Hnin) in Hframe.
    fold a1 in Hframe. destruct Hframe as (Hs & Hc & _).
    split; [done|]. split; [intros _; rewrite Hs; reflexivity|].
    assert (Hl1 : saved_instances (settings a1) !! p
                  = Some (old ++ [PyTuple (values it)])).
    { rewrite Hs. cbn. apply lookup_insert_eq. }
    apply (Hpresent a1 _ (eq_trans Hc Hcur) Hl1).
    apply elem_of_app. right. apply list_elem_of_singleton. reflexivity.
Qed.

Lemma save_instance_idempotent_sample :
  let a1 := snd (save_instance (quiet_env OtherSystem) [sample_item] fresh_app) in
  let a2 := snd (save_instance (quiet_env OtherSystem) [sample_item] a1) in
  settings a2 = settings a1 /\ config_file a2 = config_file a1 /\
  config_writes (log a2) = config_writes (log a1).
Proof.
  pose proof (save_instance_idempotent (quiet_env OtherSystem) sample_item []
                (lit "dev") fresh_app eq_refl eq_refl) as H.
  apply H. discriminate.
Defined.

(** Membership is Python's [in]: the tuple read from the tree is not
    equal to the list that [json.load] produced for the same instance, so
    after a restart the record is appended beside it. *)
Example save_instance_after_reload :
  saved_instances
    (settings (snd (save_instance (quiet_env OtherSystem) [sample_item]
                      reloaded_app))) !! lit "dev"
    = Some [PyList (values sample_item); PyTuple (values sample_item)].
Proof. vm_compute. reflexivity. Qed.

(** C10 (the code departs from the claim): an instance is saved, the
    application is closed and started again, and the same row is saved
    once more.  The first save appends the record and writes the file; the
    next start reads the record back as a list; the second save compares
    the row's tuple with that list under Python's [in], finds them
    unequal, appends a second record of the same instance and rewrites the
    file, where the claim requires the settings to stay as they are. *)
Theorem save_instance_duplicates_after_restart :
  let env := quiet_env OtherSystem in
  let a1 := snd (save_instance env [sample_item] fresh_app) in
  let a2 := snd (load_settings env (next_start a1)) in
  let a3 := snd (save_instance env [sample_item] a2) in
  saved_instances (settings a1) !! lit "dev"
    = Some [PyTuple (values sample_item)] /\
  saved_instances (settings a2) !! lit "dev"
    = Some [PyList (values sample_item)] /\
  saved_instances (settings a3) !! lit "dev"
    = Some [PyList (values sample_item); PyTuple (values sample_item)] /\
  settings a3 <> settings a2 /\
  config_writes (log a3) = [settings a3].
Proof.
  split; [vm_compute; reflexivity|].
  split; [vm_compute; reflexivity|].
  split; [vm_compute; reflexivity|].
  split; [|vm_compute; reflexivity].
  intros Heq.
  apply (f_equal (fun s => saved_instances s !! lit "dev")) in Heq.
  vm_compute in Heq. discriminate Heq.
Qed.

(** ** Terminating the tunnel *)

Lemma terminate_status_idem (s : status) :
  terminate_status (terminate_status s) = terminate_status s.
Proof. destruct s; reflexivity. Qed.

Lemma terminate_status_not_running (s : status) : terminate_status s <> Running.
Proof. destruct s; discriminate. Qed.

Lemma poll_None_cases (s : status) :
  poll_status s = None -> s = Running \/ s = Terminated false.
Proof. destruct s as [| |[]]; simpl; intros; auto; discriminate. Qed.

Lemma status_of_set_status (a b : App) (pid : nat) (s : status) :
  (pid < length (procs a))%nat ->
  status_of (set_procs (set_status pid s (procs a)) b) pid = s.
Proof.
  intros Hlt. unfold status_of, set_status. cbn [procs set_procs].
  rewrite list_lookup_alter_eq.
  destruct (lookup_lt_is_Some_2 (procs a) pid Hlt) as [p Hp].
  rewrite Hp. reflexivity.
Qed.

Lemma status_of_set_status_ne (a b : App) (pid pid' : nat) (s : status) :
  pid <> pid' ->
  status_of (set_procs (set_status pid s (procs a)) b) pid' = status_of a pid'.
Proof.
  intros Hne. unfold status_of, set_status. cbn [procs set_procs].
  rewrite list_lookup_alter_ne by exact Hne. reflexivity.
Qed.

(** A process that [poll] reports as not collected is in the table. *)
Lemma poll_None_valid (a : App) (pid : nat) :
  poll_status (status_of a pid) = None -> (pid < length (procs a))%nat.
Proof.
  unfold status_of. intros Hpoll.
  destruct (procs a !! pid) as [p|] eqn:Hp; [|discriminate].
  eapply lookup_lt_Some, Hp.
Qed.

Lemma set_status_twice (pid : nat) (s : status) (ps : list process) :
  set_status pid s (set_status pid s ps) = set_status pid s ps.
Proof.
  unfold set_status. rewrite list_alter_alter_eq.
  apply list_alter_ext; [|reflexivity]. intros p _. reflexivity.
Qed.

Lemma cleanup_live (a : App) (pid : nat) :
  tunnel_process a = Some pid -> poll_status (status_of a pid) = None ->
  cleanup a = (inr tt, set_tunnel_process None (terminated pid a)).
Proof.
  intros Hslot Hpoll. unfold cleanup, poll, terminate. run.
  rewrite Hslot. run. rewrite Hpoll. reflexivity.
Qed.

Lemma exit_cleanup_live (a : App) (pid : nat) :
  tunnel_process a = Some pid -> poll_status (status_of a pid) = None ->
  exit_cleanup a = (inr tt, terminated pid a).
Proof.
  intros Hslot Hpoll. unfold exit_cleanup, poll, terminate. run.
  rewrite Hslot. run. rewrite Hpoll. reflexivity.
Qed.

Lemma cleanup_gone (a : App) :
  tunnel_gone a -> cleanup a = (inr tt, a) /\ exit_cleanup a = (inr tt, a).
Proof.
  unfold tunnel_gone, cleanup, exit_cleanup, poll. run.
  destruct (tunnel_process a) as [pid|]; [|done]. run.
  destruct (poll_status (status_of a pid)); [done|]. intros []; reflexivity.
Qed.

Lemma status_of_terminated (a : App) (pid : nat) :
  (pid < length (procs a))%nat ->
  status_of (terminated pid a) pid = terminate_status (status_of a pid).
Proof. intros Hlt. unfold terminated. apply status_of_set_status, Hlt. Qed.

(** C8: terminating the tunnel is idempotent.  When the handle's process
    has already exited, or there is no handle, both clean-up paths leave
    the state as it is; run twice in a row, neither raises, the second run
    leaves every process as the first left it, and a process that was
    running is terminated after the first run and after the second. *)
Theorem terminate_idempotent (a : App) :
  (tunnel_gone a -> cleanup a = (inr tt, a) /\ exit_cleanup a = (inr tt, a)) /\
  (let a1 := snd (cleanup a) in
   fst (cleanup a) = inr tt /\ cleanup a1 = (inr tt, a1)) /\
  (let a1 := snd (exit_cleanup a) in
   let a2 := snd (exit_cleanup a1) in
   fst (exit_cleanup a) = inr tt /\ fst (exit_cleanup a1) = inr tt /\
   procs a2 = procs a1 /\ tunnel_process a2 = tunnel_process a1) /\
  (forall pid, tunnel_process a = Some pid -> status_of a pid = Running ->
     status_of (snd (cleanup a)) pid = Terminated false /\
     status_of (snd (exit_cleanup a)) pid = Terminated false /\
     status_of (snd (exit_cleanup (snd (exit_cleanup a)))) pid
       = Terminated false).
Proof.
  split; [apply cleanup_gone|].
  destruct (tunnel_process a) as [pid|] eqn:Hslot.
  2:{ assert (Hgone : tunnel_gone a) by (unfold tunnel_gone; rewrite Hslot; done).
      destruct (cleanup_gone a Hgone) as [Hc He].
      rewrite !Hc, !He. cbn [fst snd]. rewrite !Hc, !He. cbn [fst snd].
      split; [done|]. split; [done|]. intros pid Hpid. discriminate Hpid. }
  destruct (poll_status (status_of a pid)) as [code|] eqn:Hpoll.
  { assert (Hgone : tunnel_gone a)
      by (unfold tunnel_gone; rewrite Hslot, Hpoll; done).
    destruct (cleanup_gone a Hgone) as [Hc He].
    rewrite !Hc, !He. cbn [fst snd]. rewrite !Hc, !He. cbn [fst snd].
    split; [done|]. split; [done|].
    intros pid' [= <-] Hrun. rewrite Hrun in Hpoll. discriminate. }
  pose proof (poll_None_valid a pid Hpoll) as Hvalid.
  assert (Hst : status_of (terminated pid a) pid = Terminated false).
  { rewrite status_of_terminated by exact Hvalid.
    destruct (poll_None_cases _ Hpoll) as [-> | ->]; reflexivity. }
  assert (Hslot1 : tunnel_process (terminated pid a) = Some pid) by exact Hslot.
  assert (Hpoll1 : poll_status (status_of (terminated pid a) pid) = None)
    by (rewrite Hst; reflexivity).
  rewrite (cleanup_live a pid Hslot Hpoll), (exit_cleanup_live a pid Hslot Hpoll).
  cbn [fst snd].
  rewrite (exit_cleanup_live _ pid Hslot1 Hpoll1). cbn [fst snd].
  split; [split; [reflexivity | apply cleanup_gone; exact I]|].
  split.
  - split; [reflexivity|]. split; [reflexivity|]. split; [|reflexivity].
    unfold terminated at 1. cbn [procs set_procs].
    rewrite Hst. cbn [terminate_status].
    unfold terminated. cbn [procs set_procs add_log].
    destruct (poll_None_cases _ Hpoll) as [-> | ->]; cbn [terminate_status];
      apply set_status_twice.
  - intros pid' [= <-] Hrun. split; [exact Hst|]. split; [exact Hst|].
    rewrite status_of_terminated; [rewrite Hst; reflexivity|].
    unfold terminated, set_status. cbn [procs set_procs].
    rewrite length_alter. exact Hvalid.
Qed.

(** ** Loading the settings *)

Lemma try_except_ok {A} (m : M A) (h : exn -> M A) (a : App) (x : A) :
  fst (m a) = inr x -> try_except m h a = m a.
Proof.
  unfold try_except. destruct (m a) as [[e|y] a']; [discriminate | reflexivity].
Qed.

Lemma detect_rdp_client_returns (env : Env) (a : App) :
  fst (detect_rdp_client env a) = inr tt.
Proof.
  unfold detect_rdp_client.
  destruct (system env); [reflexivity | |].
  - destruct (path_exists env _); reflexivity.
  - destruct (first_found env _); reflexivity.
Qed.

Lemma save_settings_returns (env : Env) (a : App) :
  fst (save_settings env a) = inr tt.
Proof. unfold save_settings. destruct (open_w env _); reflexivity. Qed.

Lemma rebuild_returns (env : Env) (a : App) : fst (rebuild env a) = inr tt.
Proof.
  unfold rebuild, bind.
  pose proof (detect_rdp_client_returns env a) as Hd.
  destruct (detect_rdp_client env a) as [[e|[]] a']; [discriminate|].
  apply save_settings_returns.
Qed.

Lemma rebuild_client (env : Env) (a : App) :
  rdp_client (settings (snd (rebuild env a)))
    = client_guess env (rdp_client (settings a)).
Proof.
  unfold rebuild, detect_rdp_client, client_guess, save_settings. run.
  destruct (system env).
  - destruct (open_w env _); reflexivity.
  - destruct (path_exists env _); destruct (open_w env _); reflexivity.
  - destruct (first_found env _); destruct (open_w env _); reflexivity.
Qed.

(** On Windows a missing file yields the client [mstsc.exe] and a written
    file; an unparseable one leaves the empty client and writes nothing. *)
Lemma unreadable_file_keeps_defaults :
  let broken := set_config_file (Unreadable json_error) fresh_app in
  let loaded := snd (load_settings (quiet_env Windows) broken) in
  let first := snd (load_settings (quiet_env Windows) fresh_app) in
  rdp_client (settings loaded) = [] /\
  config_writes (log loaded) = [] /\
  log loaded = [MakeDirs (config_dir (quiet_env Windows));
                Ui (failed_to_load json_error)] /\
  rdp_client (settings first) = lit "mstsc.exe" /\
  ~ unreadable_file_rebuilds.
Proof.
  repeat split.
  intros Hclaim.
  specialize (Hclaim (quiet_env Windows)
                (set_config_file (Unreadable json_error) fresh_app)
                json_error eq_refl eq_refl).
  apply (f_equal rdp_client) in Hclaim. discriminate Hclaim.
Qed.

Lemma last_two {A} (l : list A) (x y : A) : last (l ++ [x; y]) = Some y.
Proof.
  change (l ++ [x; y]) with (l ++ [x] ++ [y]). rewrite app_assoc.
  apply last_snoc.
Qed.

(** C9, amended: [load_settings] never raises.  If the configuration
    directory cannot be created, only the Settings Error warning is shown.
    Otherwise: a missing settings file triggers the rebuild, in which the
    client becomes the platform's guess ([mstsc.exe] on Windows; on macOS
    [Microsoft Remote Desktop] if that application is installed and the
    empty string if not; elsewhere the first of [rdesktop] and [xfreerdp]
    that [which] finds, the client staying as it is if neither is found),
    the other settings stay, and the settings are then written to the file
    (or, if the file cannot be opened for writing, a Settings Error warning
    is shown and nothing is written); a file that cannot be read or parsed
    leaves the in-memory defaults untouched, writes nothing and shows the
    Settings Error warning; the contents of a well-formed file replace the
    in-memory defaults. *)
Theorem load_settings_cases (env : Env) (a : App) :
  let a' := snd (load_settings env a) in
  let warning e :=
    Ui (ShowWarning (lit "Settings Error")
          (lit "Failed to load settings: " ++ exn_text e)) in
  let found client :=
    match check_output env [lit "which"; client] with
    | Some out => if truthy (strip out) then Some (strip out) else None
    | None => None
    end in
  fst (load_settings env a) = inr tt /\
  match makedirs env (config_dir env) with
  | Some e => a' = add_log (warning e) a
  | None =>
      let a0 := add_log (MakeDirs (config_dir env)) a in
      match config_file a with
      | Missing =>
          rdp_client (settings a')
            = match system env with
              | Windows => lit "mstsc.exe"
              | Darwin =>
                  if path_exists env
                       (lit "/Applications/Microsoft Remote Desktop.app")
                  then lit "Microsoft Remote Desktop" else []
              | OtherSystem =>
                  match found (lit "rdesktop"), found (lit "xfreerdp") with
                  | Some path, _ => path
                  | None, Some path => path
                  | None, None => rdp_client (settings a)
                  end
              end /\
          default_profile (settings a') = default_profile (settings a) /\
          saved_instances (settings a') = saved_instances (settings a) /\
          local_port_range (settings a') = local_port_range (settings a) /\
          match open_w env (config_path env) with
          | None =>
              config_writes (log a') = config_writes (log a) ++ [settings a'] /\
              config_file a' = Parsed (dumped (settings a'))
          | Some e =>
              config_writes (log a') = config_writes (log a) /\
              config_file a' = Missing /\
              last (log a')
                = Some (Ui (ShowWarning (lit "Settings Error")
                              (lit "Failed to save settings: " ++ exn_text e)))
          end
      | Unreadable e =>
          a' = add_log (warning e) a0 /\
          settings a' = settings a /\
          config_writes (log a') = config_writes (log a)
      | Parsed s =>
          a' = set_settings s a0 /\
          settings a' = s /\
          config_writes (log a') = config_writes (log a)
      end
  end.
Proof.
  intros a' warning found. subst a'.
  unfold load_settings, try_except.
  destruct (makedirs env (config_dir env)) as [e|] eqn:Hmk; run.
  { split; reflexivity. }
  cbn [config_file add_log].
  destruct (config_file a) as [|e|s] eqn:Hcf; run.
  - unfold detect_rdp_client, save_settings, first_found. subst found.
    destruct (system env);
      [| destruct (path_exists env _)
       | destruct (check_output env [lit "which"; lit "rdesktop"]) as [out1|];
         [destruct (truthy (strip out1))|];
         (destruct (check_output env [lit "which"; lit "xfreerdp"]) as [out2|];
          [destruct (truthy (strip out2))|]) ];
      destruct (open_w env (config_path env)) as [ew|]; run;
      cbn [settings set_settings rdp_client set_rdp_client default_profile
           saved_instances local_port_range config_file set_config_file
           add_log log fst snd];
      rewrite <- ?app_assoc; cbn [app];
      unfold config_writes; rewrite ?omap_app; cbn [omap list_omap];
      rewrite ?app_nil_r, ?last_snoc;
      repeat split; try rewrite <- app_assoc; try reflexivity;
      try exact Hcf; apply last_two.
  - cbn [settings add_log log]. unfold config_writes.
    rewrite !omap_app. cbn. rewrite !app_nil_r. repeat split.
  - cbn [settings set_settings add_log log]. unfold config_writes.
    rewrite !omap_app. cbn. rewrite !app_nil_r. repeat split.
Qed.

(** ** Substrings *)

Lemma startswith_spec (p s : str) :
  startswith p s = true <-> exists post, s = p ++ post.
Proof.
  revert s. induction p as [|c p IH]; intros s; simpl.
  - split; [intros _; exists s; reflexivity | reflexivity].
  - destruct s as [|d s].
    + split; [discriminate | intros [post Hpost]; discriminate].
    + destruct (N.eqb_spec c d) as [->|Hne].
      * rewrite IH. split; intros [post Hpost]; exists post; congruence.
      * split; [discriminate | intros [post Hpost]; congruence].
Qed.

Lemma contains_spec (needle hay : str) :
  contains needle hay = true <-> substring needle hay.
Proof.
  unfold substring. induction hay as [|c hay IH]; simpl.
  - rewrite orb_false_r, startswith_spec. split.
    + intros [post Hpost]. exists [], post. exact Hpost.
    + intros (pre & post & Hhay). destruct pre; [|discriminate].
      exists post. exact Hhay.
  - rewrite orb_true_iff, startswith_spec, IH. split.
    + intros [[post Hpost] | (pre & post & Hhay)].
      * exists [], post. exact Hpost.
      * exists (c :: pre), post. simpl. congruence.
    + intros (pre & post & Hhay). destruct pre as [|d pre].
      * left. exists post. exact Hhay.
      * right. exists pre, post. simpl in Hhay. congruence.
Qed.

Lemma contains_false (needle hay : str) :
  contains needle hay = false <-> ~ substring needle hay.
Proof.
  rewrite <- contains_spec. destruct (contains needle hay); split; congruence.
Qed.

(** ** The launch on other systems *)

(** The substrings are tried in the order of the code: a path that names
    both clients is given the [rdesktop] argument. *)
Example rdesktop_is_tried_first :
  let client := lit "/opt/rdesktop/bin/xfreerdp" in
  contains (lit "rdesktop") client = true /\
  contains (lit "xfreerdp") client = true /\
  linux_argument client 9800 = lit "localhost:9800".
Proof. repeat split. Qed.

Lemma linux_argument_cases (client : str) (local_port : Z) :
  (substring (lit "rdesktop") client ->
     linux_argument client local_port
       = lit "localhost:" ++ str_of_int local_port) /\
  (~ substring (lit "rdesktop") client -> substring (lit "xfreerdp") client ->
     linux_argument client local_port
       = lit "/v:localhost:" ++ str_of_int local_port) /\
  (~ substring (lit "rdesktop") client -> ~ substring (lit "xfreerdp") client ->
     linux_argument client local_port
       = lit "localhost:" ++ str_of_int local_port).
Proof.
  unfold linux_argument. split; [|split].
  - intros H. apply contains_spec in H. rewrite H. reflexivity.
  - intros Hr Hx. apply contains_spec in Hx. apply contains_false in Hr.
    rewrite Hr, Hx. reflexivity.
  - intros Hr Hx. apply contains_false in Hr, Hx. rewrite Hr, Hx. reflexivity.
Qed.

(** ** Starting the tunnel and checking that it is alive *)

Lemma lookup_new {A} (l : list A) (x : A) : (l ++ [x]) !! length l = Some x.
Proof. apply list_lookup_middle. reflexivity. Qed.

Lemma status_of_started i p prof (a : App) :
  status_of (started i p prof a) (length (procs a)) = Running.
Proof.
  unfold status_of, started. cbn [procs add_log set_tunnel_process set_procs].
  rewrite lookup_new. reflexivity.
Qed.

Lemma status_of_exited_in i p prof code err (a : App) :
  status_of (exited_in (length (procs a)) code err (started i p prof a))
    (length (procs a)) = Exited code err.
Proof.
  unfold exited_in. apply status_of_set_status.
  unfold started. cbn [procs add_log set_tunnel_process set_procs].
  rewrite length_app. simpl. lia.
Qed.

Lemma setup_and_connect_alive env i p prof (a : App) :
  popen env (tunnel_command i p prof) = None ->
  tunnel_exit env = None ->
  setup_and_connect env i p prof a
    = try_except (launch_client env i p) connection_handler
        (started i p prof a).
Proof.
  intros Hpopen Hexit.
  unfold setup_and_connect, try_except, Popen, grace_wait, poll.
  rewrite Hpopen, Hexit. run. cbn [procs add_log set_procs].
  fold (started i p prof a). rewrite status_of_started. reflexivity.
Qed.

Lemma setup_and_connect_exited env i p prof code err (a : App) :
  popen env (tunnel_command i p prof) = None ->
  tunnel_exit env = Some (code, err) ->
  setup_and_connect env i p prof a
    = try_except (tunnel_failed env (length (procs a))) connection_handler
        (exited_in (length (procs a)) code err (started i p prof a)).
Proof.
  intros Hpopen Hexit.
  unfold setup_and_connect, try_except, Popen, grace_wait, poll.
  rewrite Hpopen, Hexit. run. cbn [procs add_log set_procs].
  match goal with
  | |- context [status_of ?s ?n] =>
      change (status_of s n)
        with (status_of
                (exited_in (length (procs a)) code err (started i p prof a))
                (length (procs a)))
  end.
  rewrite status_of_exited_in. reflexivity.
Qed.

Lemma log_started i p prof (a : App) :
  log (started i p prof a)
    = log a ++ [Ui (setting_up i p prof);
                Spawn (tunnel_command i p prof) (length (procs a));
                Sleep 2].
Proof.
  unfold started. cbn [log add_log set_tunnel_process set_procs].
  rewrite <- !app_assoc. reflexivity.
Qed.

Lemma attempts_app (l k : list effect) :
  attempts (l ++ k) = attempts l ++ attempts k.
Proof. apply omap_app. Qed.

Lemma error_texts_app (title : str) (l k : list effect) :
  error_texts title (l ++ k) = error_texts title l ++ error_texts title k.
Proof. apply omap_app. Qed.

(** The run in which the tunnel process has exited during the wait. *)
Lemma tunnel_failed_run env i p prof code err (a : App) :
  let pid := length (procs a) in
  let b := exited_in pid code err (started i p prof a) in
  try_except (tunnel_failed env pid) connection_handler b
    = (inr tt,
       match decode_utf8 err with
       | Some text =>
           add_log (Ui (ShowError (lit "Tunnel Error") (strip text)))
             (add_log (Ui (SetStatus (lit "Tunnel setup failed: " ++ strip text)))
                b)
       | None =>
           add_log (Callback (lit "e")
                      (ShowError (lit "Connection Error") (decode_error env err)))
             (add_log (Callback (lit "e")
                         (SetStatus (lit "Connection error: " ++
                                     decode_error env err))) b)
       end).
Proof.
  intros pid b. unfold try_except, tunnel_failed. run.
  subst b pid. rewrite status_of_exited_in. cbn [stderr_of].
  destruct (decode_utf8 err) as [text|]; [reflexivity|].
  cbn [raise]. unfold connection_handler. cbn [exn_kind exn_text].
  run. unfold cleanup, poll. run.
  cbn [tunnel_process add_log exited_in set_procs started set_tunnel_process].
  run.
  match goal with
  | |- context [status_of ?s ?n] =>
      change (status_of s n)
        with (status_of
                (exited_in (length (procs a)) code err (started i p prof a))
                (length (procs a)))
  end.
  rewrite status_of_exited_in. reflexivity.
Qed.

(** A tunnel that writes a line and exits with code 1: the text shown
    has lost the line's newline. *)
Lemma diagnostic_is_stripped :
  decode_utf8 (blit "boom" ++ [x0a]) = Some (lit "boom" ++ [10%N]) /\
  error_texts (lit "Tunnel Error")
    (log (snd (setup_and_connect failing_tunnel_env (lit "i-0001") 9800
                 (lit "dev") fresh_app)))
    = [lit "boom"] /\
  ~ diagnostic_is_error_stream.
Proof.
  split; [reflexivity|]. split; [reflexivity|].
  intros Hclaim.
  specialize (Hclaim failing_tunnel_env (lit "i-0001") 9800 (lit "dev")
                fresh_app 1 (blit "boom" ++ [x0a]) (lit "boom" ++ [10%N])
                eq_refl eq_refl eq_refl).
  vm_compute in Hclaim. discriminate Hclaim.
Qed.

(** C5, amended: when the tunnel process has exited by the end of the
    two-second wait, the handle's process is found exited and no client is
    launched; if its error stream is valid UTF-8, the text shown in the
    status line and in the Tunnel Error box is that stream decoded, with
    leading and trailing whitespace removed; if it is not valid UTF-8, no
    Tunnel Error box is asked for.  When the process has not exited, it is
    running and the launch of the client proceeds. *)
Theorem tunnel_liveness_check env i p prof (a : App) :
  popen env (tunnel_command i p prof) = None ->
  let pid := length (procs a) in
  let a' := snd (setup_and_connect env i p prof a) in
  (forall code err, tunnel_exit env = Some (code, err) ->
     status_of a' pid = Exited code err /\
     attempts (log a')
       = attempts (log a) ++ [(tunnel_command i p prof, true)] /\
     (forall text, decode_utf8 err = Some text ->
        log a' = log a ++
                 [Ui (setting_up i p prof);
                  Spawn (tunnel_command i p prof) pid;
                  Sleep 2;
                  Ui (SetStatus (lit "Tunnel setup failed: " ++ strip text));
                  Ui (ShowError (lit "Tunnel Error") (strip text))]) /\
     (decode_utf8 err = None ->
        error_texts (lit "Tunnel Error") (log a')
          = error_texts (lit "Tunnel Error") (log a))) /\
  (tunnel_exit env = None ->
     status_of (started i p prof a) pid = Running /\
     setup_and_connect env i p prof a
       = try_except (launch_client env i p) connection_handler
           (started i p prof a)).
Proof.
  intros Hpopen pid a'. split.
  - intros code err Hexit. subst a' pid.
    rewrite (setup_and_connect_exited env i p prof code err a Hpopen Hexit).
    rewrite tunnel_failed_run. cbn [snd].
    pose proof (status_of_exited_in i p prof code err a) as Hst.
    pose proof (log_started i p prof a) as Hlog.
    destruct (decode_utf8 err) as [text|].
    + split; [exact Hst|]. split.
      * cbn [log add_log exited_in set_procs]. rewrite Hlog, !attempts_app.
        cbn. rewrite !app_nil_r. reflexivity.
      * split; [|discriminate]. intros text' [= <-].
        cbn [log add_log exited_in set_procs]. rewrite Hlog.
        rewrite <- !app_assoc. reflexivity.
    + split; [exact Hst|]. split.
      * cbn [log add_log exited_in set_procs]. rewrite Hlog, !attempts_app.
        cbn. rewrite !app_nil_r. reflexivity.
      * split; [discriminate|]. intros _.
        cbn [log add_log exited_in set_procs]. rewrite Hlog.
        rewrite !error_texts_app. cbn. rewrite !app_nil_r. reflexivity.
  - intros Hexit. split; [apply status_of_started|].
    apply setup_and_connect_alive; assumption.
Qed.

Lemma tunnel_liveness_check_failing :
  status_of (snd (setup_and_connect failing_tunnel_env (lit "i-0001") 9800
                    (lit "dev") fresh_app)) 0
    = Exited 1 (blit "boom" ++ [x0a]).
Proof.
  pose proof (tunnel_liveness_check failing_tunnel_env (lit "i-0001") 9800
                (lit "dev") fresh_app eq_refl) as [Hexited _].
  exact (proj1 (Hexited 1 (blit "boom" ++ [x0a]) eq_refl)).
Defined.

(** ** Launching the client *)

Lemma drop_past {A} (l k : list A) (x : A) :
  drop (S (length l)) (l ++ x :: k) = k.
Proof.
  change (l ++ x :: k) with (l ++ [x] ++ k). rewrite app_assoc.
  replace (S (length l)) with (length (l ++ [x]))
    by (rewrite length_app; simpl; lia).
  apply drop_app_length.
Qed.

(** Symbolic execution of a run from the state [started]. *)
Ltac unfold_run :=
  unfold launch_client, launch_windows, launch_darwin, launch_linux,
    try_except, write_file, Popen, error_creating_rdp_file,
    connection_handler, cleanup, poll, terminate.

Ltac started_status i p prof a :=
  repeat match goal with
  | |- context [status_of ?s (length (procs a))] =>
      change (status_of s (length (procs a)))
        with (status_of (started i p prof a) (length (procs a)));
      rewrite (status_of_started i p prof a)
  end.

Ltac read_attempts i p prof a :=
  cbn [log add_log set_procs set_tunnel_process set_status];
  rewrite ?(log_started i p prof a), ?attempts_app;
  cbn [attempts omap list_omap attempt_of app];
  rewrite <- ?app_assoc; cbn [app].

(** C7: on a system that is neither Windows nor macOS exactly one launch
    attempt is made, the configured client with one argument, and the form
    of the argument is chosen by the recognised substrings of the client
    path, tried in order: a path in which the first one, [rdesktop], occurs
    gets [localhost:port]; a path in which it does not occur and the second
    one, [xfreerdp], does gets [/v:localhost:port]; a path with neither
    falls back to [localhost:port]. *)
Theorem linux_launch_once env i p prof (a : App) :
  system env = OtherSystem ->
  popen env (tunnel_command i p prof) = None ->
  tunnel_exit env = None ->
  let client := rdp_client (settings a) in
  let a' := snd (setup_and_connect env i p prof a) in
  let argument := linux_argument client p in
  launch_attempts a a'
    = [([client; argument],
        match popen env [client; argument] with
        | None => true
        | Some _ => false
        end)] /\
  (substring (lit "rdesktop") client ->
     argument = lit "localhost:" ++ str_of_int p) /\
  (~ substring (lit "rdesktop") client -> substring (lit "xfreerdp") client ->
     argument = lit "/v:localhost:" ++ str_of_int p) /\
  (~ substring (lit "rdesktop") client -> ~ substring (lit "xfreerdp") client ->
     argument = lit "localhost:" ++ str_of_int p).
Proof.
  intros Hsys Hpopen Hexit client a' argument.
  split; [|apply linux_argument_cases].
  subst a' argument.
  rewrite (setup_and_connect_alive env i p prof a Hpopen Hexit).
  unfold launch_attempts. unfold_run. rewrite Hsys. run.
  cbn [settings add_log started set_tunnel_process set_procs]. fold client.
  destruct (popen env [client; linux_argument client p]) as [e|]; run.
  - destruct (exn_kind e) eqn:Hkind; run; rewrite ?Hkind; run;
      cbn [tunnel_process add_log started set_tunnel_process]; run;
      started_status i p prof a; run;
      read_attempts i p prof a; apply drop_past.
  - read_attempts i p prof a. apply drop_past.
Qed.

Lemma linux_launch_once_xfreerdp :
  launch_attempts linux_app
    (snd (setup_and_connect (quiet_env OtherSystem) (lit "i-0001") 9800
            (lit "dev") linux_app))
    = [([lit "/usr/bin/xfreerdp"; lit "/v:localhost:9800"], true)].
Proof.
  apply (linux_launch_once (quiet_env OtherSystem) (lit "i-0001") 9800
           (lit "dev") linux_app eq_refl eq_refl eq_refl).
Defined.

(** ** The launch chain on macOS *)


Ltac in_log :=
  rewrite ?elem_of_app, ?list_elem_of_singleton, ?elem_of_cons; tauto.







(** ** What a run leaves of the processes that existed before it *)

Section Preserves.
Context {P : App -> Prop}.

Lemma preserves_ret {A} (x : A) : preserves P (ret x).
Proof. intros a Ha. exact Ha. Qed.

Lemma preserves_raise {A} (e : exn) : preserves P (@raise A e).
Proof. intros a Ha. exact Ha. Qed.

Lemma preserves_get : preserves P get.
Proof. intros a Ha. exact Ha. Qed.

Lemma preserves_bind {A B} (m : M A) (k : A -> M B) :
  preserves P m -> (forall x, preserves P (k x)) -> preserves P (bind m k).
Proof.
  intros Hm Hk a Ha. unfold bind. specialize (Hm a Ha).
  destruct (m a) as [[e|x] a1]; [exact Hm | apply Hk, Hm].
Qed.

Lemma preserves_try_except {A} (m : M A) (h : exn -> M A) :
  preserves P m -> (forall e, preserves P (h e)) ->
  preserves P (try_except m h).
Proof.
  intros Hm Hh a Ha. unfold try_except. specialize (Hm a Ha).
  destruct (m a) as [[e|x] a1]; [apply Hh, Hm | exact Hm].
Qed.

Lemma preserves_modify (f : App -> App) :
  (forall a, P a -> P (f a)) -> preserves P (modify f).
Proof. intros Hf a Ha. apply Hf, Ha. Qed.
End Preserves.

Section PriorProcesses.
(** The process table and the terminations requested before the run. *)
Variable ps : list process.
Variable asked : list nat.

Lemma kept_add_log (e : effect) (a : App) :
  (forall pid, e = Terminate pid -> pid = length ps) ->
  kept ps asked a -> kept ps asked (add_log e a).
Proof.
  intros He (Hprocs & Hslot & Hlog). split; [exact Hprocs|].
  split; [exact Hslot|]. intros pid. unfold terminated_pids.
  cbn [log add_log]. rewrite omap_app, elem_of_app. intros [Hin|Hin].
  - apply Hlog, Hin.
  - destruct e; cbn in Hin; try (by apply elem_of_nil in Hin).
    apply list_elem_of_singleton in Hin. subst. right. apply He. reflexivity.
Qed.

Lemma preserves_emit (e : effect) :
  (forall pid, e <> Terminate pid) -> preserves (kept ps asked) (emit e).
Proof.
  intros He a Ha. apply kept_add_log; [|exact Ha].
  intros pid Hpid. destruct (He pid Hpid).
Qed.

Lemma preserves_after (u : ui_action) : preserves (kept ps asked) (after u).
Proof. apply preserves_emit. discriminate. Qed.

Lemma preserves_after_reading (reads : string) (u : ui_action) :
  preserves (kept ps asked) (after_reading reads u).
Proof. apply preserves_emit. discriminate. Qed.

Lemma preserves_Popen (env : Env) (argv : list str) :
  preserves (kept ps asked) (Popen env argv).
Proof.
  intros a Ha. unfold Popen. destruct (popen env argv) as [e|].
  - apply (kept_add_log (SpawnFailed argv e)); [discriminate | exact Ha].
  - run. apply (kept_add_log (Spawn argv _)); [discriminate|].
    destruct Ha as (Hprocs & Hslot & Hlog). split; [|split; assumption].
    intros pid Hpid. cbn [procs set_procs].
    rewrite lookup_app_l; [apply Hprocs, Hpid|].
    apply lookup_lt_is_Some. rewrite (Hprocs pid Hpid).
    apply lookup_lt_is_Some. exact Hpid.
Qed.

Lemma preserves_cleanup : preserves (kept ps asked) cleanup.
Proof.
  intros a Ha. unfold cleanup, poll, terminate. run.
  destruct Ha as (Hprocs & Hslot & Hlog).
  destruct Hslot as [Hslot|Hslot]; rewrite Hslot; run;
    [|split; [|split]; auto].
  destruct (poll_status (status_of a (length ps))); run;
    [split; [|split]; auto|].
  split; [|split].
  - intros pid Hpid. cbn [procs set_procs set_tunnel_process add_log].
    unfold set_status. rewrite list_lookup_alter_ne by lia.
    apply Hprocs, Hpid.
  - right. reflexivity.
  - intros pid. unfold terminated_pids.
    cbn [log set_procs set_tunnel_process add_log].
    rewrite omap_app, elem_of_app. intros [Hin|Hin]; [apply Hlog, Hin|].
    apply list_elem_of_singleton in Hin. right. exact Hin.
Qed.
End PriorProcesses.

Ltac preserve :=
  repeat first
    [ apply preserves_ret | apply preserves_raise | apply preserves_get
    | apply preserves_after | apply preserves_Popen | apply preserves_cleanup
    | apply preserves_after_reading
    | apply preserves_emit; discriminate
    | apply preserves_bind; [|intros ?]
    | apply preserves_try_except; [|intros ?]
    | match goal with
      | |- preserves _ (match ?x with _ => _ end) => destruct x
      | |- preserves _ (if ?x then _ else _) => destruct x
      end ].

Lemma preserves_launch_client ps asked env i p :
  preserves (kept ps asked) (launch_client env i p).
Proof.
  unfold launch_client, launch_windows, launch_darwin, launch_linux,
    write_file, error_creating_rdp_file.
  preserve.
Qed.

Lemma preserves_tunnel_failed ps asked env pid :
  preserves (kept ps asked) (tunnel_failed env pid).
Proof. unfold tunnel_failed. preserve. Qed.

Lemma preserves_connection_handler ps asked e :
  preserves (kept ps asked) (connection_handler e).
Proof. unfold connection_handler. preserve. Qed.

Lemma kept_started i p prof (a : App) :
  kept (procs a) (terminated_pids (log a)) (started i p prof a).
Proof.
  split; [|split].
  - intros pid Hpid. unfold started.
    cbn [procs add_log set_tunnel_process set_procs].
    apply lookup_app_l, Hpid.
  - left. reflexivity.
  - intros pid. rewrite log_started. unfold terminated_pids.
    rewrite omap_app, elem_of_app. cbn. rewrite elem_of_nil. tauto.
Qed.

Lemma kept_exited_in i p prof code err (a : App) :
  kept (procs a) (terminated_pids (log a))
    (exited_in (length (procs a)) code err (started i p prof a)).
Proof.
  destruct (kept_started i p prof a) as (Hprocs & Hslot & Hlog).
  split; [|split; assumption].
  intros pid Hpid. unfold exited_in, set_status. cbn [procs set_procs].
  rewrite list_lookup_alter_ne by lia. apply Hprocs, Hpid.
Qed.

(** A run whose tunnel process is created leaves the earlier processes
    alone. *)
Lemma setup_and_connect_kept env i p prof (a : App) :
  popen env (tunnel_command i p prof) = None ->
  kept (procs a) (terminated_pids (log a))
    (snd (setup_and_connect env i p prof a)).
Proof.
  intros Hpopen. destruct (tunnel_exit env) as [[code err]|] eqn:Hexit.
  - rewrite (setup_and_connect_exited env i p prof code err a Hpopen Hexit).
    apply preserves_try_except;
      [apply preserves_tunnel_failed
      |intros e; apply preserves_connection_handler
      |apply kept_exited_in].
  - rewrite (setup_and_connect_alive env i p prof a Hpopen Hexit).
    apply preserves_try_except;
      [apply preserves_launch_client
      |intros e; apply preserves_connection_handler
      |apply kept_started].
Qed.

(** ** One tunnel at a time *)

(** Two connections in a row: the first tunnel (process 0) still runs
    beside the second (process 2), and no termination was requested. *)
Lemma two_live_tunnels :
  tunnel_process connected_once = Some 0%nat /\
  status_of connected_once 0 = Running /\
  tunnel_process connected_twice = Some 2%nat /\
  status_of connected_twice 0 = Running /\
  live_tunnels connected_twice = [0%nat; 2%nat] /\
  terminated_pids (log connected_twice) = [] /\
  ~ prior_tunnel_is_terminated.
Proof.
  repeat (split; [vm_compute; reflexivity|]).
  intros Hclaim.
  destruct (Hclaim (quiet_env OtherSystem) (lit "i-0002") 9801 (lit "dev")
              connected_once 0%nat eq_refl eq_refl eq_refl) as [_ Hgone].
  apply Hgone. vm_compute. reflexivity.
Qed.

(** C1, amended: the application keeps one tunnel handle.  A connection
    whose tunnel process is created puts that process in the handle (or
    leaves the handle empty after the error clean-up) and does not
    terminate any earlier process: every earlier process keeps its status,
    so an earlier live tunnel goes on running, and the only process the run
    may ask to terminate is its own. *)
Theorem new_tunnel_keeps_prior env i p prof (a : App) :
  popen env (tunnel_command i p prof) = None ->
  let a' := snd (setup_and_connect env i p prof a) in
  let new := length (procs a) in
  (tunnel_process a' = Some new \/ tunnel_process a' = None) /\
  (forall pid, (pid < new)%nat -> status_of a' pid = status_of a pid) /\
  (forall pid, pid ∈ terminated_pids (log a') ->
     pid ∈ terminated_pids (log a) \/ pid = new) /\
  (forall old, tunnel_process a = Some old -> status_of a old = Running ->
     status_of a' old = Running).
Proof.
  intros Hpopen a' new.
  destruct (setup_and_connect_kept env i p prof a Hpopen)
    as (Hprocs & Hslot & Hlog).
  fold a' in Hprocs, Hslot, Hlog.
  assert (Hstatus : forall pid, (pid < new)%nat ->
                               status_of a' pid = status_of a pid).
  { intros pid Hpid. unfold status_of. rewrite (Hprocs pid Hpid). reflexivity. }
  split; [exact Hslot|]. split; [exact Hstatus|]. split; [exact Hlog|].
  intros old _ Hrun. rewrite Hstatus; [exact Hrun|].
  unfold status_of in Hrun.
  destruct (procs a !! old) as [pr|] eqn:Hold; [|discriminate Hrun].
  eapply lookup_lt_Some, Hold.
Qed.

Lemma new_tunnel_keeps_prior_second_run :
  status_of connected_twice 0 = Running.
Proof.
  pose proof (new_tunnel_keeps_prior (quiet_env OtherSystem) (lit "i-0002")
                9801 (lit "dev") connected_once eq_refl) as (_ & _ & _ & Hold).
  exact (Hold 0%nat eq_refl eq_refl).
Defined.

(** ** The request as a whole *)

(** The port [connect_rdp] hands to the tunnel thread is the one drawn
    from the configured range. *)
Lemma connect_rdp_port env selection (a a' : App) iid port prof :
  connect_rdp env selection a = (inr (Some (iid, port, prof)), a') ->
  allocate_port env (settings a) = inr port.
Proof.
  unfold connect_rdp, index, aws_sso_login, after, emit, modify, bind, get,
    ret, raise, lift.
  destruct selection as [|it rest]; [discriminate|].
  destruct (truthy_list (values it)); cbn [negb]; [|discriminate].
  destruct (values it !! 1%nat); [|discriminate].
  destruct (values it !! 0%nat); [|discriminate].
  destruct (resolve_profile _ _ _) as [connection warning].
  destruct warning; cbn [settings add_log current_profile];
    destruct (profile_switch _ _);
    cbn [settings add_log current_profile set_current_profile];
    repeat match goal with
    | |- context [if ?b then _ else _] => destruct b; cbn
    end;
    try discriminate;
    destruct (allocate_port env (settings a)); try discriminate;
    intros [= <- <- <- <-]; reflexivity.
Qed.

(** * Further properties of the methods *)

(** ** [connect_rdp] *)

Lemma untouched_refl (a : App) : untouched a a.
Proof. repeat split. Qed.

Lemma untouched_emit (a0 : App) (e : effect) :
  quiet_effect e = true -> preserves (untouched a0) (emit e).
Proof.
  intros He a (Hp & Ht & Hs & Hc & Hprof & Hatt & Hterm & Hw).
  unfold emit, modify. cbn [snd].
  unfold untouched, attempts, terminated_pids, config_writes in *.
  cbn [procs tunnel_process settings config_file aws_profiles log add_log].
  rewrite !omap_app.
  destruct e; try discriminate He; cbn; rewrite !app_nil_r; auto 10.
Qed.

Lemma untouched_set_current_profile (a0 : App) (p : option str) :
  preserves (untouched a0) (modify (set_current_profile p)).
Proof. intros a Ha. exact Ha. Qed.

Ltac quiet :=
  repeat first
    [ apply preserves_ret | apply preserves_raise | apply preserves_get
    | apply untouched_set_current_profile
    | apply untouched_emit; reflexivity
    | apply preserves_bind; [|intros ?]
    | match goal with
      | |- preserves _ (match ?x with _ => _ end) => destruct x
      | |- preserves _ (if ?x then _ else _) => destruct x
      | |- preserves _ (let '(_, _) := ?x in _) => destruct x
      end ].

(** X1: [connect_rdp] leaves the processes, the tunnel handle, the
    settings, the settings file and the profile list as they are; it starts
    no process, asks for no termination and writes no settings. *)
Theorem connect_rdp_untouched env selection (a : App) :
  untouched a (snd (connect_rdp env selection a)).
Proof.
  assert (H : preserves (untouched a) (connect_rdp env selection)).
  { unfold connect_rdp, index, aws_sso_login, after, lift. quiet. }
  apply H, untouched_refl.
Qed.

Lemma allocate_port_ok_range env (s : Settings) (port : Z) :
  allocate_port env s = inr port ->
  fst (local_port_range s) <= port <= snd (local_port_range s).
Proof.
  unfold allocate_port. destruct (local_port_range s) as [lo hi]. simpl.
  destruct (Z.lt_ge_cases hi lo) as [Hrev|Hle].
  - rewrite randint_empty by assumption. discriminate.
  - rewrite randint_ok by assumption. intros [= <-].
    pose proof (randbelow_bounds env (hi + 1 - lo)). lia.
Qed.

Lemma allocate_port_error env (s : Settings) (e : exn) :
  allocate_port env s = inl e ->
  exn_kind e = ValueError /\
  snd (local_port_range s) < fst (local_port_range s).
Proof.
  unfold allocate_port. destruct (local_port_range s) as [lo hi]. simpl.
  destruct (Z.lt_ge_cases hi lo) as [Hrev|Hle].
  - rewrite randint_empty by assumption. intros [= <-]. split; [reflexivity|lia].
  - rewrite randint_ok by assumption. discriminate.
Qed.

Lemma allocate_port_returns env (s : Settings) :
  fst (local_port_range s) <= snd (local_port_range s) ->
  exists port, allocate_port env s = inr port.
Proof.
  intros Hle. unfold allocate_port. rewrite randint_ok by exact Hle.
  eexists. reflexivity.
Qed.

Ltac connect_cases a :=
  unfold connect_rdp, index, aws_sso_login, after, emit, modify, bind, get,
    ret, raise, lift;
  destruct (truthy_list (values _)) eqn:Hvalues; cbn [negb]; [|discriminate];
  destruct (values _ !! 1%nat) as [iid'|] eqn:Hid; [|discriminate];
  destruct (values _ !! 0%nat) as [name'|] eqn:Hname; [|discriminate];
  destruct (resolve_profile _ _ _) as [connection warning] eqn:Hresolve;
  destruct warning; cbn [settings add_log current_profile];
    destruct (profile_switch _ _) eqn:Hswitch;
    cbn [settings add_log current_profile set_current_profile].

(** The guards that follow the profile switch, one case each. *)
Ltac connect_guards :=
  repeat (cbn [settings current_profile add_log set_current_profile
               negb andb];
    first
      [ match goal with
        | H : ?b = _ |- context [negb ?b] => rewrite H
        end
      | match goal with
        | |- context [negb (profile_truthy ?p)] =>
            destruct (profile_truthy p) eqn:?
        | |- context [negb (truthy ?c)] =>
            destruct (truthy c) eqn:?
        | |- context [negb (path_exists ?e ?c)] =>
            destruct (path_exists e c) eqn:?
        | |- context [match system ?e with _ => _ end] =>
            destruct (system e) eqn:?
        end ]).

(** X2: when [connect_rdp] starts the tunnel thread, the instance is the
    second cell of the selected row, the profile is the non-empty current
    profile, a client is configured (and, off macOS, exists on disk), and
    the port was drawn from the configured range, bounds included. *)
Theorem connect_rdp_started env it rest (a a' : App) iid port prof :
  connect_rdp env (it :: rest) a = (inr (Some (iid, port, prof)), a') ->
  values it !! 1%nat = Some iid /\
  current_profile a' = Some prof /\ truthy prof = true /\
  truthy (rdp_client (settings a)) = true /\
  (system env <> Darwin -> path_exists env (rdp_client (settings a)) = true) /\
  fst (local_port_range (settings a)) <= port
    <= snd (local_port_range (settings a)).
Proof.
  connect_cases a.
  all: connect_guards.
  all: try discriminate.
  all: destruct (allocate_port env (settings a)) as [e|port'] eqn:Hport;
    [discriminate|].
  all: intros [= <- <- <- <-].
  all: match goal with
       | H : profile_truthy _ = true |- _ =>
           apply profile_truthy_Some in H as (s & Hs & Htruthy)
       end.
  all: cbn [current_profile add_log set_current_profile] in *.
  all: rewrite Hs; cbn [str_of_profile].
  all: repeat split; try congruence;
    apply (allocate_port_ok_range env (settings a) port' Hport).
Qed.

Lemma connect_rdp_started_sample :
  values sample_item !! 1%nat = Some (lit "i-0001") /\
  current_profile (snd (connect_rdp (quiet_env OtherSystem) [sample_item]
                          linux_app)) = Some (lit "dev") /\
  truthy (lit "dev") = true /\
  truthy (rdp_client (settings linux_app)) = true /\
  (system (quiet_env OtherSystem) <> Darwin ->
   path_exists (quiet_env OtherSystem) (rdp_client (settings linux_app)) = true) /\
  fst (local_port_range (settings linux_app)) <= 9800
    <= snd (local_port_range (settings linux_app)).
Proof.
  apply (connect_rdp_started (quiet_env OtherSystem) sample_item [] linux_app
           (snd (connect_rdp (quiet_env OtherSystem) [sample_item] linux_app))
           (lit "i-0001") 9800 (lit "dev")).
  vm_compute. reflexivity.
Defined.

(** X3: [connect_rdp] raises an [IndexError] when the selected row has
    exactly one cell, before anything is shown or changed. For an untagged
    row of two or more cells, with a non-empty current profile and a
    configured client (which, off macOS, exists on disk), it raises the
    [ValueError] of [random.randint] when the configured range has its
    maximum below its minimum, again before anything is shown or changed. *)
Theorem connect_rdp_raises env it rest (a : App) :
  (length (values it) = 1%nat ->
     connect_rdp env (it :: rest) a
       = (inl (Exn IndexError (lit "tuple index out of range")), a)) /\
  (forall prof,
     (2 <= length (values it))%nat -> tags it = [] ->
     current_profile a = Some prof -> truthy prof = true ->
     truthy (rdp_client (settings a)) = true ->
     (system env <> Darwin ->
      path_exists env (rdp_client (settings a)) = true) ->
     snd (local_port_range (settings a)) < fst (local_port_range (settings a)) ->
     exists e, connect_rdp env (it :: rest) a = (inl e, a) /\
               exn_kind e = ValueError).
Proof.
  split.
  - intros Hone. unfold connect_rdp, index.
    destruct (values it) as [|v0 [|v1 vs]]; try discriminate Hone.
    reflexivity.
  - intros prof Htwo Htags Hcur Hprof Hclient Hpath Hrange.
    unfold connect_rdp, index, lift.
    destruct (values it) as [|v0 [|v1 vs]]; cbn in Htwo; try lia.
    run. cbn [lookup list_lookup]. run.
    rewrite Htags, Hcur. cbn [resolve_profile]. run.
    unfold profile_switch. rewrite bool_decide_eq_true_2 by reflexivity.
    rewrite andb_false_r. run. rewrite Hcur. cbn [profile_truthy].
    rewrite Hprof, Hclient. run.
    assert (Hguard : (match system env with Darwin => false | _ => true end
                      && negb (path_exists env (rdp_client (settings a))))
                     = false).
    { destruct (system env) eqn:Hsys; [|reflexivity|];
        rewrite Hpath by discriminate; reflexivity. }
    rewrite Hguard. unfold allocate_port.
    destruct (local_port_range (settings a)) as [lo hi]. cbn [fst snd] in *.
    rewrite randint_empty by exact Hrange.
    eexists. split; reflexivity.
Qed.

Lemma connect_rdp_raises_reversed :
  let a := set_settings (set_local_port_range (9900, 9800)
                           (settings linux_app)) linux_app in
  exists e, connect_rdp (quiet_env OtherSystem) [sample_item] a = (inl e, a) /\
            exn_kind e = ValueError.
Proof.
  apply (proj2 (connect_rdp_raises (quiet_env OtherSystem) sample_item []
                  (set_settings (set_local_port_range (9900, 9800)
                                   (settings linux_app)) linux_app))
           (lit "dev")).
  - simpl. lia.
  - reflexivity.
  - reflexivity.
  - reflexivity.
  - reflexivity.
  - intros _. reflexivity.
  - simpl. lia.
Defined.

Lemma logins_add (a : App) (e : effect) :
  logins (log (add_log e a))
    = logins (log a) ++ match e with StartLoginThread p => [p] | _ => [] end.
Proof.
  unfold logins. cbn [log add_log]. rewrite omap_app.
  destruct e; reflexivity.
Qed.

Lemma logins_set_current_profile (a : App) (p : option str) :
  logins (log (set_current_profile p a)) = logins (log a).
Proof. reflexivity. Qed.

(** X4: for a selected row with at least two cells, [connect_rdp] starts
    the login thread exactly when the profile it resolves is non-empty and
    differs from the current one; it then makes that profile the current
    one. Otherwise no login is started and the current profile stays. *)
Theorem connect_rdp_login env it rest (a : App) iid :
  values it !! 1%nat = Some iid ->
  let connection :=
    fst (resolve_profile (current_profile a) (tags it) (aws_profiles a)) in
  let a' := snd (connect_rdp env (it :: rest) a) in
  if profile_switch connection (current_profile a)
  then logins (log a') = logins (log a) ++ [str_of_profile connection] /\
       current_profile a' = connection
  else logins (log a') = logins (log a) /\
       current_profile a' = current_profile a.
Proof.
  intros Hid connection a'. subst connection a'.
  unfold connect_rdp, index, aws_sso_login, after, emit, modify, bind, get,
    ret, raise, lift.
  rewrite Hid.
  destruct (values it) as [|v0 vs] eqn:Hvalues; [discriminate|].
  cbn [truthy_list negb lookup list_lookup].
  destruct (resolve_profile _ _ _) as [connection warning] eqn:Hresolve.
  cbn [fst].
  destruct warning; cbn [settings add_log current_profile];
    destruct (profile_switch _ _) eqn:Hswitch;
    cbn [settings add_log current_profile set_current_profile].
  all: connect_guards.
  all: try destruct (allocate_port env (settings a)) as [e'|port'] eqn:Hport.
  all: cbn [negb andb snd raise ret current_profile add_log
            set_current_profile].
  all: repeat (rewrite logins_add || rewrite logins_set_current_profile);
    cbn [app]; rewrite ?app_nil_r, <- ?app_assoc;
    cbn [app]; try (split; reflexivity).
  all: unfold profile_switch in Hswitch; apply andb_prop in Hswitch as [Ht _];
    congruence.
Qed.

Lemma connect_rdp_login_switch :
  logins (log (snd (connect_rdp (quiet_env OtherSystem) [sample_row] linux_app)))
    = [lit "prod"] /\
  current_profile (snd (connect_rdp (quiet_env OtherSystem) [sample_row]
                          linux_app)) = Some (lit "prod").
Proof.
  exact (connect_rdp_login (quiet_env OtherSystem) sample_row [] linux_app
           (lit "i-0001") eq_refl).
Defined.

(** ** [setup_and_connect]: failures and what is left running *)

Lemma cleanup_returns (a : App) : fst (cleanup a) = inr tt.
Proof.
  unfold cleanup, poll, terminate. run.
  destruct (tunnel_process a) as [pid|]; [|reflexivity]. run.
  destruct (poll_status (status_of a pid)); reflexivity.
Qed.

Lemma connection_handler_returns (e : exn) (a : App) :
  fst (connection_handler e a) = inr tt.
Proof.
  unfold connection_handler. destruct (exn_kind e); run;
    try reflexivity; apply cleanup_returns.
Qed.

(** X5: [setup_and_connect] never lets an exception escape: whatever the
    tunnel command, the file system and the client do, it returns. *)
Theorem setup_and_connect_returns env i p prof (a : App) :
  fst (setup_and_connect env i p prof a) = inr tt.
Proof.
  unfold setup_and_connect, try_except.
  match goal with |- context [let (s, a') := ?m a in _] => destruct (m a) as [[e|[]] a1] end.
  - apply connection_handler_returns.
  - reflexivity.
Qed.

(** X6: when the [aws] executable is missing ([Popen] raises
    [FileNotFoundError]) nothing is started or terminated and the handle
    keeps what it held; the status line and an error box say that the AWS
    CLI was not found. *)
Theorem tunnel_tool_missing env i p prof (a : App) (e : exn) :
  popen env (tunnel_command i p prof) = Some e ->
  exn_kind e = FileNotFoundError ->
  let a' := snd (setup_and_connect env i p prof a) in
  procs a' = procs a /\ tunnel_process a' = tunnel_process a /\
  log a' = log a ++ [Ui (setting_up i p prof);
                     SpawnFailed (tunnel_command i p prof) e;
                     Ui (SetStatus aws_cli_not_found);
                     Ui (ShowError (lit "Error") aws_cli_not_found)].
Proof.
  intros Hpopen Hkind a'. subst a'.
  unfold setup_and_connect, try_except, Popen, connection_handler.
  rewrite Hpopen. run. rewrite Hkind. run.
  cbn [procs tunnel_process log add_log]. rewrite <- !app_assoc.
  repeat split.
Qed.

Lemma tunnel_tool_missing_sample :
  procs (snd (setup_and_connect (with_popen missing_aws (quiet_env OtherSystem))
                (lit "i-0002") 9801 (lit "dev") connected_once))
    = procs connected_once.
Proof.
  apply (tunnel_tool_missing (with_popen missing_aws (quiet_env OtherSystem))
           (lit "i-0002") 9801 (lit "dev") connected_once _ eq_refl eq_refl).
Defined.

(** X7: when starting the tunnel process fails with any other exception,
    the clean-up acts on the handle of the earlier connection: a tunnel
    that was still running is terminated and the handle is emptied; if the
    handle held no running process nothing is terminated. *)
Theorem tunnel_start_error env i p prof (a : App) (e : exn) :
  popen env (tunnel_command i p prof) = Some e ->
  exn_kind e <> FileNotFoundError ->
  let a' := snd (setup_and_connect env i p prof a) in
  (forall old, tunnel_process a = Some old -> status_of a old = Running ->
     status_of a' old = Terminated false /\ tunnel_process a' = None /\
     terminated_pids (log a') = terminated_pids (log a) ++ [old]) /\
  (tunnel_gone a ->
     procs a' = procs a /\ tunnel_process a' = tunnel_process a /\
     terminated_pids (log a') = terminated_pids (log a)).
Proof.
  intros Hpopen Hkind a'. subst a'.
  unfold setup_and_connect, try_except, Popen, connection_handler.
  rewrite Hpopen. run.
  set (b := add_log (Callback (lit "e")
                       (ShowError (lit "Connection Error") (exn_text e)))
              (add_log (Callback (lit "e")
                          (SetStatus (lit "Connection error: " ++ exn_text e)))
                 (add_log (SpawnFailed (tunnel_command i p prof) e)
                    (add_log (Ui (setting_up i p prof)) a)))).
  assert (Hb : snd (match exn_kind e with
                    | FileNotFoundError =>
                        (after (SetStatus aws_cli_not_found);;
                         after (ShowError (lit "Error") aws_cli_not_found))%py
                    | _ =>
                        (after_reading "e"
                           (SetStatus (lit "Connection error: " ++ exn_text e));;
                         after_reading "e"
                           (ShowError (lit "Connection Error") (exn_text e));;
                         cleanup)%py
                    end
                      (add_log (SpawnFailed (tunnel_command i p prof) e)
                         (add_log (Ui (setting_up i p prof)) a)))
               = snd (cleanup b)).
  { destruct (exn_kind e); try (destruct (Hkind eq_refl)); reflexivity. }
  rewrite Hb. clear Hb.
  assert (Hterm : terminated_pids (log b) = terminated_pids (log a)).
  { subst b. unfold terminated_pids. cbn [log add_log].
    rewrite !omap_app. cbn. rewrite !app_nil_r. reflexivity. }
  split.
  - intros old Hslot Hrun.
    assert (Hpoll : poll_status (status_of b old) = None)
      by (change (status_of b old) with (status_of a old); rewrite Hrun;
          reflexivity).
    rewrite (cleanup_live b old Hslot Hpoll). cbn [snd].
    split; [|split; [reflexivity|]].
    + change (status_of (set_tunnel_process None (terminated old b)) old)
        with (status_of (terminated old b) old).
      rewrite status_of_terminated
        by (apply (poll_None_valid b old Hpoll)).
      change (status_of b old) with (status_of a old). rewrite Hrun.
      reflexivity.
    + unfold terminated, terminated_pids in *.
      cbn [log add_log set_procs set_tunnel_process].
      rewrite omap_app, Hterm. reflexivity.
  - intros Hgone.
    destruct (cleanup_gone b Hgone) as [-> _]. cbn [snd].
    repeat split. exact Hterm.
Qed.

Lemma tunnel_start_error_sample :
  status_of (snd (setup_and_connect (with_popen busy_port (quiet_env OtherSystem))
                    (lit "i-0002") 9801 (lit "dev") connected_once)) 0
    = Terminated false.
Proof.
  pose proof (tunnel_start_error (with_popen busy_port (quiet_env OtherSystem))
                (lit "i-0002") 9801 (lit "dev") connected_once _ eq_refl)
    as H.
  destruct (H ltac:(discriminate)) as [Hlive _].
  exact (proj1 (Hlive 0%nat eq_refl eq_refl)).
Defined.

(** ** [setup_and_connect]: the launch on Windows, and what stays up *)

(** The status of the tunnel process in a state reached from [started]
    by logging and by starting further processes. *)
Ltac tunnel_status :=
  unfold status_of;
  cbn [procs add_log set_procs set_tunnel_process started];
  rewrite ?lookup_app_l by (rewrite ?length_app; cbn; lia);
  rewrite lookup_new; reflexivity.

Ltac windows_facts :=
  split; [tunnel_status|];
  split; [reflexivity|];
  split; [cbn [log add_log]; apply last_snoc|].

(** X8: on Windows, with the tunnel alive, the descriptor file is written
    and then exactly one launch attempt is made, the configured client with
    that file as its argument; if the file cannot be written no attempt is
    made. A failure of either step is caught by the File Error handler,
    which hands its error box to the event loop as a callback that reads
    the name [file_error] bound by the [except] clause. In every case the
    tunnel keeps running in the handle and the last status asked for reads
    Connected. *)
Theorem windows_launch env i p prof (a : App) :
  system env = Windows ->
  popen env (tunnel_command i p prof) = None ->
  tunnel_exit env = None ->
  let f := windows_rdp_file env i in
  let client := rdp_client (settings a) in
  let pid := length (procs a) in
  let a' := snd (setup_and_connect env i p prof a) in
  status_of a' pid = Running /\ tunnel_process a' = Some pid /\
  last (log a') = Some (Ui (connected_status i p)) /\
  match open_w env f with
  | Some e =>
      launch_attempts a a' = [] /\
      Callback (lit "file_error") (file_error e) ∈ log a'
  | None =>
      launch_attempts a a' = [([client; f], starts env [client; f])] /\
      WriteFile f (rdp_file_text p) ∈ log a' /\
      (forall e, popen env [client; f] = Some e ->
         Callback (lit "file_error") (file_error e) ∈ log a')
  end.
Proof.
  intros Hsys Hpopen Hexit f client pid a'. subst f client pid a'.
  rewrite (setup_and_connect_alive env i p prof a Hpopen Hexit).
  unfold launch_attempts, starts, windows_rdp_file. unfold_run.
  rewrite Hsys. run.
  cbn [settings add_log started set_tunnel_process set_procs].
  destruct (open_w env _) as [ew|] eqn:How; run.
  { windows_facts. read_attempts i p prof a. rewrite ?drop_past.
    split; [reflexivity|]. unfold file_error. in_log. }
  destruct (popen env [rdp_client (settings a); _]) as [ec|] eqn:Hclient; run.
  - windows_facts. read_attempts i p prof a. rewrite ?drop_past.
    split; [reflexivity|]. split; [in_log|].
    intros e [= <-]. unfold file_error. in_log.
  - windows_facts. read_attempts i p prof a. rewrite ?drop_past.
    split; [reflexivity|]. split; [in_log|]. discriminate.
Qed.

Lemma windows_launch_sample :
  tunnel_process (snd (setup_and_connect (quiet_env Windows) (lit "i-0001")
                         9800 (lit "dev") windows_app)) = Some 0%nat.
Proof.
  pose proof (windows_launch (quiet_env Windows) (lit "i-0001") 9800
                (lit "dev") windows_app eq_refl eq_refl eq_refl)
    as (_ & Hslot & _).
  exact Hslot.
Defined.

(** X9: on a system that is neither Windows nor macOS, with the tunnel
    alive: if the client starts, or cannot be found ([FileNotFoundError]),
    the tunnel keeps running in the handle and the last status reads
    Connected; if starting the client fails in any other way the tunnel just
    started is terminated and the handle is emptied. *)
Theorem linux_client_failure env i p prof (a : App) :
  system env = OtherSystem ->
  popen env (tunnel_command i p prof) = None ->
  tunnel_exit env = None ->
  let client := rdp_client (settings a) in
  let pid := length (procs a) in
  let a' := snd (setup_and_connect env i p prof a) in
  match popen env [client; linux_argument client p] with
  | None =>
      status_of a' pid = Running /\ tunnel_process a' = Some pid /\
      last (log a') = Some (Ui (connected_status i p))
  | Some e =>
      match exn_kind e with
      | FileNotFoundError =>
          status_of a' pid = Running /\ tunnel_process a' = Some pid /\
          last (log a') = Some (Ui (connected_status i p)) /\
          Ui (client_not_found client) ∈ log a'
      | _ =>
          status_of a' pid = Terminated false /\ tunnel_process a' = None /\
          terminated_pids (log a') = terminated_pids (log a) ++ [pid]
      end
  end.
Proof.
  intros Hsys Hpopen Hexit client pid a'. subst pid a'.
  rewrite (setup_and_connect_alive env i p prof a Hpopen Hexit).
  unfold_run. rewrite Hsys. run.
  cbn [settings add_log started set_tunnel_process set_procs]. fold client.
  destruct (popen env [client; linux_argument client p]) as [e|]; run.
  2:{ split; [tunnel_status|]. split; [reflexivity|].
      cbn [log add_log]. apply last_snoc. }
  destruct (exn_kind e) eqn:Hkind; run; rewrite ?Hkind; run.
  { windows_facts. unfold client_not_found. cbn [log add_log]. in_log. }
  all: cbn [tunnel_process add_log started set_tunnel_process]; run;
    started_status i p prof a; run;
    cbn [tunnel_process add_log started set_tunnel_process set_procs];
    (split; [|split; [reflexivity|]]);
    [ unfold status_of, set_status;
      cbn [procs add_log set_procs set_tunnel_process started];
      rewrite list_lookup_alter_eq, lookup_new; reflexivity
    | unfold terminated_pids;
      cbn [log add_log set_procs set_tunnel_process started];
      rewrite !omap_app; cbn; rewrite ?app_nil_r; reflexivity ].
Qed.

Lemma linux_client_failure_sample :
  tunnel_process (snd (setup_and_connect (quiet_env OtherSystem) (lit "i-0001")
                         9800 (lit "dev") linux_app)) = Some 0%nat.
Proof.
  pose proof (linux_client_failure (quiet_env OtherSystem) (lit "i-0001") 9800
                (lit "dev") linux_app eq_refl eq_refl eq_refl) as H.
  exact (proj1 (proj2 H)).
Defined.

Ltac tunnel_down i p prof a :=
  cbn [tunnel_process add_log started set_tunnel_process]; run;
  started_status i p prof a; run;
  cbn [tunnel_process add_log started set_tunnel_process set_procs];
  (split; [|split; [reflexivity|]]);
  [ unfold status_of, set_status;
    cbn [procs add_log set_procs set_tunnel_process started];
    rewrite list_lookup_alter_eq, lookup_new; reflexivity
  | unfold terminated_pids;
    cbn [log add_log set_procs set_tunnel_process started];
    rewrite !omap_app; cbn; rewrite ?app_nil_r; reflexivity ].

Ltac tunnel_up :=
  split; [tunnel_status|]; split; [reflexivity|];
  cbn [log add_log]; apply last_snoc.

(** X10: on macOS, with the tunnel alive and the temporary directory in
    place, the tunnel keeps running in the handle and the last status reads
    Connected whatever becomes of the descriptor file and of the three
    launch attempts, also when all of them fail. If the directory cannot be
    created, a [FileNotFoundError] is reported as a missing AWS CLI and the
    tunnel is left running, and any other exception terminates the tunnel
    and empties the handle. *)
Theorem mac_tunnel_after_launch env i p prof (a : App) :
  system env = Darwin ->
  popen env (tunnel_command i p prof) = None ->
  tunnel_exit env = None ->
  let pid := length (procs a) in
  let a' := snd (setup_and_connect env i p prof a) in
  match makedirs env (path_join env (home env) (lit ".aws_rdp_connect_temp")) with
  | None =>
      status_of a' pid = Running /\ tunnel_process a' = Some pid /\
      last (log a') = Some (Ui (connected_status i p))
  | Some e =>
      match exn_kind e with
      | FileNotFoundError =>
          status_of a' pid = Running /\ tunnel_process a' = Some pid /\
          last (log a') = Some (Ui (ShowError (lit "Error") aws_cli_not_found))
      | _ =>
          status_of a' pid = Terminated false /\ tunnel_process a' = None /\
          terminated_pids (log a') = terminated_pids (log a) ++ [pid]
      end
  end.
Proof.
  intros Hsys Hpopen Hexit pid a'. subst pid a'.
  rewrite (setup_and_connect_alive env i p prof a Hpopen Hexit).
  unfold_run. rewrite Hsys. run.
  destruct (makedirs env _) as [em|] eqn:Hmk; run.
  { destruct (exn_kind em) eqn:Hkind; run; rewrite ?Hkind; run;
      [tunnel_up | tunnel_down i p prof a ..]. }
  destruct (open_w env _) as [ew|] eqn:How; run; [tunnel_up|].
  destruct (popen env (mac_method1 _)) as [e1|] eqn:H1; run; [|tunnel_up].
  destruct (popen env (mac_method2 _)) as [e2|] eqn:H2; run; [|tunnel_up].
  destruct (popen env (mac_method3 _)) as [e3|] eqn:H3; run; tunnel_up.
Qed.

Lemma mac_tunnel_after_launch_all_fail :
  let a' := snd (setup_and_connect (with_popen nothing_opens (quiet_env Darwin))
                   (lit "i-0001") 9800 (lit "dev") fresh_app) in
  status_of a' 0 = Running /\ tunnel_process a' = Some 0%nat /\
  last (log a') = Some (Ui (connected_status (lit "i-0001") 9800)).
Proof.
  exact (mac_tunnel_after_launch (with_popen nothing_opens (quiet_env Darwin))
           (lit "i-0001") 9800 (lit "dev") fresh_app eq_refl eq_refl eq_refl).
Defined.

(** ** Leaving the application *)

Lemma exit_cleanup_frame (a : App) (pid : nat) :
  tunnel_process a <> Some pid ->
  status_of (snd (exit_cleanup a)) pid = status_of a pid.
Proof.
  intros Hother. unfold exit_cleanup, poll, terminate. run.
  destruct (tunnel_process a) as [handle|] eqn:Hslot; [|reflexivity]. run.
  destruct (poll_status (status_of a handle)); [reflexivity|]. run.
  apply status_of_set_status_ne. congruence.
Qed.

(** X11: the clean-up at exit acts on the process in the handle only:
    every other process keeps its status, and no termination is asked of
    any other process. *)
Theorem exit_cleanup_other_processes (a : App) (pid : nat) :
  tunnel_process a <> Some pid ->
  status_of (snd (exit_cleanup a)) pid = status_of a pid /\
  (pid ∈ terminated_pids (log (snd (exit_cleanup a))) ->
   pid ∈ terminated_pids (log a)).
Proof.
  intros Hother. split; [apply exit_cleanup_frame, Hother|].
  unfold exit_cleanup, poll, terminate. run.
  destruct (tunnel_process a) as [handle|] eqn:Hslot; [|trivial]. run.
  destruct (poll_status (status_of a handle)); [trivial|]. run.
  unfold terminated_pids. cbn [log add_log set_procs].
  rewrite omap_app, elem_of_app. cbn. rewrite list_elem_of_singleton.
  intros [Hin | ->]; [exact Hin | congruence].
Qed.

Lemma exit_cleanup_other_processes_first_tunnel :
  status_of (snd (exit_cleanup connected_twice)) 0 = status_of connected_twice 0.
Proof.
  refine (proj1 (exit_cleanup_other_processes connected_twice 0 _)).
  discriminate.
Defined.

(** X12: a connection that replaces a running tunnel leaves it running
    past the exit of the application: after a run whose tunnel process is
    created, followed by the clean-up at exit, the earlier tunnel still
    runs. *)
Theorem replaced_tunnel_outlives_exit env i p prof (a : App) (old : nat) :
  tunnel_process a = Some old -> status_of a old = Running ->
  popen env (tunnel_command i p prof) = None ->
  status_of (snd (exit_cleanup (snd (setup_and_connect env i p prof a)))) old
    = Running.
Proof.
  intros Hslot Hrun Hpopen.
  destruct (setup_and_connect_kept env i p prof a Hpopen)
    as (Hprocs & Hhandle & _).
  assert (Hold : (old < length (procs a))%nat).
  { unfold status_of in Hrun.
    destruct (procs a !! old) as [pr|] eqn:Hpr; [|discriminate Hrun].
    eapply lookup_lt_Some, Hpr. }
  rewrite exit_cleanup_frame.
  - unfold status_of. rewrite (Hprocs old Hold). exact Hrun.
  - destruct Hhandle as [-> | ->]; [|discriminate].
    intros [= Heq]. lia.
Qed.

Lemma replaced_tunnel_outlives_exit_sample :
  status_of (snd (exit_cleanup connected_twice)) 0 = Running.
Proof.
  exact (replaced_tunnel_outlives_exit (quiet_env OtherSystem) (lit "i-0002")
           9801 (lit "dev") connected_once 0%nat eq_refl eq_refl eq_refl).
Defined.

(** ** The text shown for a failed command *)

Lemma lstrip_split (s : str) :
  exists pre, s = pre ++ lstrip s /\ Forall (fun c => isspace c = true) pre.
Proof.
  induction s as [|c s (pre & Hs & Hpre)]; [exists []; split; [reflexivity|constructor]|].
  cbn [lstrip]. destruct (isspace c) eqn:Hc.
  - exists (c :: pre). split; [cbn; congruence | constructor; assumption].
  - exists []. split; [reflexivity | constructor].
Qed.

Lemma lstrip_head (s : str) (c : N) (r : str) :
  lstrip s = c :: r -> isspace c = false.
Proof.
  induction s as [|d s IH]; [discriminate|]. cbn [lstrip].
  destruct (isspace d) eqn:Hd; [exact IH|]. intros [= <- <-]. exact Hd.
Qed.

Lemma lstrip_snoc (s : str) (c : N) :
  isspace c = false -> lstrip (s ++ [c]) = lstrip s ++ [c].
Proof.
  intros Hc. induction s as [|d s IH]; cbn [lstrip app].
  - rewrite Hc. reflexivity.
  - destruct (isspace d); [exact IH | reflexivity].
Qed.

(** X13: the text shown for a failed tunnel, login or instance query is
    the error text without the whitespace around it: the text is some
    whitespace, the shown part, and some more whitespace, and the shown part
    neither starts nor ends with whitespace. *)
Theorem strip_trims (s : str) :
  (exists pre post,
     s = pre ++ strip s ++ post /\
     Forall (fun c => isspace c = true) pre /\
     Forall (fun c => isspace c = true) post) /\
  (forall c r, strip s = c :: r -> isspace c = false) /\
  (forall r c, strip s = r ++ [c] -> isspace c = false).
Proof.
  unfold strip, rstrip.
  destruct (lstrip_split s) as (pre & Hs & Hpre).
  destruct (lstrip_split (rev (lstrip s))) as (post & Ht & Hpost).
  assert (Hlast : forall r c, rev (lstrip (rev (lstrip s))) = r ++ [c] ->
                              isspace c = false).
  { intros r c Hr. apply (f_equal (@rev N)) in Hr.
    rewrite rev_involutive, rev_app_distr in Hr. cbn in Hr.
    eapply lstrip_head, Hr. }
  split; [|split; [|exact Hlast]].
  - exists pre, (rev post). split; [|split; [exact Hpre|]].
    + rewrite Hs at 1. f_equal.
      apply (f_equal (@rev N)) in Ht. rewrite rev_involutive in Ht.
      rewrite Ht at 1. apply rev_app_distr.
    + apply Forall_rev, Hpost.
  - intros c r Hstrip.
    destruct (lstrip s) as [|d t] eqn:Hl.
    { cbn in Hstrip. discriminate. }
    pose proof (lstrip_head s d t Hl) as Hd.
    change (rev (d :: t)) with (rev t ++ [d]) in Hstrip.
    rewrite (lstrip_snoc _ _ Hd), rev_app_distr in Hstrip. cbn in Hstrip.
    congruence.
Qed.

(** ** [refresh_profiles] *)

Ltac gprojections :=
  cbn [fst snd negb andb orb default
       the_app profile_var combo_values tree ec2_instances load_button
       dialog_open set_app set_profile_var set_combo_values set_tree
       set_ec2_instances set_load_button set_dialog_open
       aws_profiles current_profile tunnel_process settings config_file procs
       log set_aws_profiles set_current_profile set_settings set_config_file
       add_log rdp_client default_profile saved_instances local_port_range
       set_rdp_client set_default_profile set_local_port_range].

Ltac grun :=
  unfold gtry, gfinally, gbind, gget, gmodify, gret, graise, gafter,
    gafter_reading, on_app, after, after_reading, emit, modify, bind, get,
    ret, raise, try_except;
  gprojections.

Lemma profiles_of_sections_spec (sections : list str) (p : str) :
  p ∈ profiles_of_sections sections <-> lit "profile " ++ p ∈ sections.
Proof.
  induction sections as [|section rest IH]; cbn [profiles_of_sections].
  - rewrite !elem_of_nil. tauto.
  - destruct (startswith (lit "profile ") section) eqn:Hstart.
    + apply startswith_spec in Hstart as [post ->].
      change (drop 8 (lit "profile " ++ post)) with post.
      rewrite !elem_of_cons, IH. split.
      * intros [-> | Hin]; [left; reflexivity | right; exact Hin].
      * intros [Heq | Hin]; [left | right; exact Hin].
        apply (f_equal (drop 8)) in Heq. exact Heq.
    + rewrite elem_of_cons, IH. split; [tauto|].
      intros [<- | Hin]; [|exact Hin].
      assert (startswith (lit "profile ") (lit "profile " ++ p) = true)
        by (apply startswith_spec; eexists; reflexivity).
      congruence.
Qed.

(** X14: after [refresh_profiles] has read the configuration file, a name
    is in the profile list exactly when the file has a section
    [profile <name>]; sections without that prefix, such as [default],
    give no profile; the combobox offers the same list. *)
Theorem refresh_profiles_sections env aws (g : Gui) (sections : list str) :
  path_exists env (aws_config_path env) = true ->
  config_sections aws = inr sections ->
  let g' := snd (refresh_profiles env aws g) in
  (forall p, p ∈ aws_profiles (the_app g') <-> lit "profile " ++ p ∈ sections) /\
  combo_values g' = aws_profiles (the_app g').
Proof.
  intros Hexists Hsections g'. subst g'.
  assert (Hl : aws_profiles (the_app (snd (refresh_profiles env aws g)))
               = profiles_of_sections sections /\
               combo_values (snd (refresh_profiles env aws g))
               = profiles_of_sections sections).
  { unfold refresh_profiles. rewrite Hexists, Hsections. grun.
    destruct (profiles_of_sections sections) as [|first rest]; gprojections;
      [split; reflexivity|].
    case_bool_decide; gprojections; split; reflexivity. }
  destruct Hl as [-> ->]. split; [|reflexivity].
  intros p. apply profiles_of_sections_spec.
Qed.

(** X15: when [refresh_profiles] reads the profiles without an exception,
    then with no profile found the current profile is [None] and the
    combobox is empty; otherwise the current profile is the combobox
    selection, which is in the list: the earlier selection if the list still
    has it, the first profile of the list if not. *)
Theorem refresh_profiles_selection env aws (g : Gui) (l : list str) :
  read_profiles env aws = inr l ->
  let g' := snd (refresh_profiles env aws g) in
  aws_profiles (the_app g') = l /\
  match l with
  | [] => current_profile (the_app g') = None /\ profile_var g' = []
  | first :: _ =>
      current_profile (the_app g') = Some (profile_var g') /\
      profile_var g' ∈ l /\
      profile_var g' = if bool_decide (profile_var g ∈ l)
                       then profile_var g else first
  end.
Proof.
  intros Hread g'. subst g'. unfold read_profiles in Hread.
  unfold refresh_profiles.
  destruct (path_exists env (aws_config_path env)).
  - destruct (config_sections aws) as [e|sections]; [discriminate|].
    injection Hread as <-. grun.
    destruct (profiles_of_sections sections) as [|first rest] eqn:Hl;
      gprojections; [repeat split|].
    case_bool_decide; gprojections; repeat split; try assumption.
    apply elem_of_cons. left. reflexivity.
  - injection Hread as <-. grun. repeat split.
Qed.

Lemma refresh_profiles_selection_sample :
  let g' := snd (refresh_profiles (quiet_env OtherSystem) two_profiles
                   (initial_gui Missing [])) in
  aws_profiles (the_app g') = [lit "dev"; lit "prod"] /\
  current_profile (the_app g') = Some (profile_var g') /\
  profile_var g' ∈ [lit "dev"; lit "prod"] /\
  profile_var g' = lit "dev".
Proof.
  exact (refresh_profiles_selection (quiet_env OtherSystem) two_profiles
           (initial_gui Missing []) [lit "dev"; lit "prod"] eq_refl).
Defined.

Lemma refresh_profiles_sections_sample :
  let g' := snd (refresh_profiles (quiet_env OtherSystem) two_profiles
                   (initial_gui Missing [])) in
  (forall p, p ∈ aws_profiles (the_app g') <->
             lit "profile " ++ p ∈ [lit "default"; lit "profile dev";
                                    lit "profile prod"]) /\
  combo_values g' = aws_profiles (the_app g').
Proof.
  exact (refresh_profiles_sections (quiet_env OtherSystem) two_profiles
           (initial_gui Missing []) _ eq_refl eq_refl).
Defined.

(** X16: when reading the configuration file raises, [refresh_profiles]
    has already emptied the profile list and leaves it empty, while the
    current profile, the combobox selection and the combobox list stay as
    they were; the failure is shown in an error box. *)
Theorem refresh_profiles_read_error env aws (g : Gui) (e : exn) :
  read_profiles env aws = inl e ->
  let g' := snd (refresh_profiles env aws g) in
  fst (refresh_profiles env aws g) = inr tt /\
  aws_profiles (the_app g') = [] /\
  current_profile (the_app g') = current_profile (the_app g) /\
  profile_var g' = profile_var g /\ combo_values g' = combo_values g /\
  last (log (the_app g')) = Some (Ui (failed_to_load_profiles e)).
Proof.
  intros Hread g'. subst g'. unfold read_profiles in Hread.
  unfold refresh_profiles.
  destruct (path_exists env (aws_config_path env)); [|discriminate].
  destruct (config_sections aws) as [e'|sections]; [|discriminate].
  injection Hread as <-. grun. repeat split. apply last_snoc.
Qed.

Lemma refresh_profiles_read_error_sample :
  aws_profiles (the_app (snd (refresh_profiles (quiet_env OtherSystem)
                                broken_config (initial_gui Missing [])))) = [].
Proof.
  pose proof (refresh_profiles_read_error (quiet_env OtherSystem) broken_config
                (initial_gui Missing []) _ eq_refl) as (_ & H & _).
  exact H.
Defined.

(** ** [save_settings_dialog] *)

Lemma port_range_check (min_port max_port : Z) :
  (min_port <? 1024) || (65535 <? min_port) || (max_port <? 1024) ||
  (65535 <? max_port) || (max_port <=? min_port) = false <->
  1024 <= min_port /\ min_port < max_port /\ max_port <= 65535.
Proof.
  rewrite !orb_false_iff, !Z.ltb_ge, Z.leb_gt. lia.
Qed.

(** X17: the settings dialog refuses a port range unless
    1024 <= min < max <= 65535: a refused request shows the error box and
    changes nothing else, neither the settings nor their file, and the
    dialog stays open. *)
Theorem save_settings_dialog_refuses env client profile min_port max_port
    (g : Gui) :
  ~ (1024 <= min_port /\ min_port < max_port /\ max_port <= 65535) ->
  save_settings_dialog env client profile min_port max_port g
    = (inr tt, set_app (add_log (Ui invalid_port_range) (the_app g)) g).
Proof.
  intros Hbad. unfold save_settings_dialog.
  destruct ((min_port <? 1024) || (65535 <? min_port) || (max_port <? 1024) ||
            (65535 <? max_port) || (max_port <=? min_port)) eqn:Hcheck.
  - grun. reflexivity.
  - apply port_range_check in Hcheck. destruct (Hbad Hcheck).
Qed.

Lemma save_settings_dialog_refuses_equal_ports :
  save_settings_dialog (quiet_env OtherSystem) (lit "/usr/bin/xfreerdp") []
    9800 9800 (initial_gui Missing [])
    = (inr tt,
       set_app (add_log (Ui invalid_port_range)
                  (the_app (initial_gui Missing []))) (initial_gui Missing [])).
Proof.
  apply (save_settings_dialog_refuses (quiet_env OtherSystem)). lia.
Defined.

Ltac dialog_cases Hcheck :=
  unfold save_settings_dialog, save_settings; rewrite Hcheck; grun;
  destruct (open_w _ _); gprojections;
  destruct (aws_profiles (the_app _)) as [|first rest] eqn:Hprofiles;
  gprojections;
  repeat (case_bool_decide; gprojections).

(** X18: an accepted request stores the client, the default profile and
    the port range, keeps the saved instances, closes the dialog and touches
    no process; from then on a port can always be allocated, and it lies
    within the new range and within 1024..65535. *)
Theorem save_settings_dialog_accepts env client profile min_port max_port
    (g : Gui) :
  1024 <= min_port /\ min_port < max_port /\ max_port <= 65535 ->
  let g' := snd (save_settings_dialog env client profile min_port max_port g) in
  let s' := settings (the_app g') in
  rdp_client s' = client /\ default_profile s' = profile /\
  local_port_range s' = (min_port, max_port) /\
  saved_instances s' = saved_instances (settings (the_app g)) /\
  dialog_open g' = false /\
  procs (the_app g') = procs (the_app g) /\
  tunnel_process (the_app g') = tunnel_process (the_app g) /\
  (forall env', exists port,
     allocate_port env' s' = inr port /\
     min_port <= port <= max_port /\ 1024 <= port <= 65535).
Proof.
  intros Hok g' s'. subst s' g'.
  pose proof (proj2 (port_range_check min_port max_port) Hok) as Hcheck.
  assert (Hfields :
    let g' := snd (save_settings_dialog env client profile min_port max_port g) in
    settings (the_app g')
      = set_local_port_range (min_port, max_port)
          (set_default_profile profile
             (set_rdp_client client (settings (the_app g)))) /\
    dialog_open g' = false /\
    procs (the_app g') = procs (the_app g) /\
    tunnel_process (the_app g') = tunnel_process (the_app g)).
  { dialog_cases Hcheck; repeat split. }
  cbn zeta in Hfields. destruct Hfields as (-> & Hdialog & Hprocs & Hslot).
  repeat split; try assumption.
  intros env'.
  destruct (allocate_port_returns env'
              (set_local_port_range (min_port, max_port)
                 (set_default_profile profile
                    (set_rdp_client client (settings (the_app g))))))
    as (port & Hport); [cbn; lia|].
  exists port. split; [exact Hport|].
  apply allocate_port_ok_range in Hport. cbn in Hport. lia.
Qed.

Lemma save_settings_dialog_accepts_sample :
  local_port_range
    (settings (the_app (snd (save_settings_dialog (quiet_env OtherSystem)
                               (lit "/usr/bin/xfreerdp") [] 2000 3000
                               (initial_gui Missing [])))))
    = (2000, 3000).
Proof.
  pose proof (save_settings_dialog_accepts (quiet_env OtherSystem)
                (lit "/usr/bin/xfreerdp") [] 2000 3000 (initial_gui Missing []))
    as H.
  destruct H as (_ & _ & Hrange & _); [lia | exact Hrange].
Defined.

(** X19: after an accepted request, when profiles are known, the
    combobox selection is one of them: the new default profile if it is
    known (it then becomes the current profile too), else the earlier
    selection if it is known, else the first profile, which then becomes
    the current profile. *)
Theorem save_settings_dialog_selection env client profile min_port max_port
    (g : Gui) :
  1024 <= min_port /\ min_port < max_port /\ max_port <= 65535 ->
  aws_profiles (the_app g) <> [] ->
  let g' := snd (save_settings_dialog env client profile min_port max_port g) in
  aws_profiles (the_app g') = aws_profiles (the_app g) /\
  combo_values g' = aws_profiles (the_app g) /\
  profile_var g' ∈ aws_profiles (the_app g) /\
  (profile ∈ aws_profiles (the_app g) ->
     profile_var g' = profile /\ current_profile (the_app g') = Some profile) /\
  (profile ∉ aws_profiles (the_app g) ->
   profile_var g ∈ aws_profiles (the_app g) ->
     profile_var g' = profile_var g /\
     current_profile (the_app g') = current_profile (the_app g)) /\
  (profile ∉ aws_profiles (the_app g) ->
   profile_var g ∉ aws_profiles (the_app g) ->
     head (aws_profiles (the_app g)) = Some (profile_var g') /\
     current_profile (the_app g') = Some (profile_var g')).
Proof.
  intros Hok Hknown g'. subst g'.
  pose proof (proj2 (port_range_check min_port max_port) Hok) as Hcheck.
  dialog_cases Hcheck; try (destruct (Hknown eq_refl));
    repeat split; intros; try assumption; try contradiction;
    try reflexivity;
    try (apply elem_of_cons; left; reflexivity).
Qed.

Lemma save_settings_dialog_selection_sample :
  current_profile
    (the_app (snd (save_settings_dialog (quiet_env OtherSystem)
                     (lit "/usr/bin/xfreerdp") (lit "prod") 2000 3000
                     known_profiles_gui)))
    = Some (lit "prod").
Proof.
  pose proof (save_settings_dialog_selection (quiet_env OtherSystem)
                (lit "/usr/bin/xfreerdp") (lit "prod") 2000 3000
                known_profiles_gui) as H.
  destruct H as (_ & _ & _ & Hdefault & _); [lia | discriminate |].
  apply Hdefault. apply elem_of_cons. right. apply elem_of_cons. left.
  reflexivity.
Defined.

(** ** [load_saved_instances] *)

Lemma load_saved_instances_tree (g : Gui) :
  load_saved_instances g
    = (inr tt,
       set_tree (mjoin (saved_rows (aws_profiles (the_app g)) <$>
                          map_to_list (saved_instances (settings (the_app g)))))
         g).
Proof. reflexivity. Qed.

Lemma elem_of_saved_rows (profiles : list str) (entry : str * list pyseq)
    (r : row) :
  r ∈ saved_rows profiles entry <->
  fst entry ∈ profiles /\
  exists instance, instance ∈ snd entry /\ r = saved_row (fst entry) instance.
Proof.
  unfold saved_rows. case_bool_decide as Hknown.
  - rewrite list_elem_of_fmap. split.
    + intros (instance & -> & Hin). split; [exact Hknown|].
      exists instance. split; [exact Hin | reflexivity].
    + intros (_ & instance & Hin & ->). exists instance.
      split; [reflexivity | exact Hin].
  - rewrite elem_of_nil. tauto.
Qed.

Lemma tree_of_saved_instances (g : Gui) (r : row) :
  r ∈ tree (snd (load_saved_instances g)) <->
  exists profile instances instance,
    saved_instances (settings (the_app g)) !! profile = Some instances /\
    profile ∈ aws_profiles (the_app g) /\
    instance ∈ instances /\ r = saved_row profile instance.
Proof.
  rewrite load_saved_instances_tree. cbn [snd tree set_tree].
  rewrite list_elem_of_join. split.
  - intros (rows & Hr & Hrows).
    apply list_elem_of_fmap in Hrows as ([profile instances] & -> & Hentry).
    apply elem_of_map_to_list in Hentry.
    apply elem_of_saved_rows in Hr as (Hknown & instance & Hin & ->).
    exists profile, instances, instance. auto.
  - intros (profile & instances & instance & Hsaved & Hknown & Hin & ->).
    exists (saved_rows (aws_profiles (the_app g)) (profile, instances)). split.
    + apply elem_of_saved_rows. split; [exact Hknown|].
      exists instance. split; [exact Hin | reflexivity].
    + apply list_elem_of_fmap. exists (profile, instances).
      split; [reflexivity|]. apply elem_of_map_to_list. exact Hsaved.
Qed.

(** X20: after [load_saved_instances] the tree holds exactly the saved
    records of the profiles that are known: a row is in the tree if and only
    if it is the row of a record saved under a profile of the profile list,
    and it carries that profile as its only tag. Records saved
    under a profile that is no longer known are not shown. *)
Theorem load_saved_instances_rows (g : Gui) (r : row) :
  r ∈ tree (snd (load_saved_instances g)) <->
  exists profile instances instance,
    saved_instances (settings (the_app g)) !! profile = Some instances /\
    profile ∈ aws_profiles (the_app g) /\
    instance ∈ instances /\ r = saved_row profile instance.
Proof. apply tree_of_saved_instances. Qed.

(** X21: every row that [load_saved_instances] puts in the tree resolves,
    when it is selected for a connection, to the profile it is tagged with,
    whatever the current profile, and without a Profile-Not-Found warning
    (a row tagged with the empty profile name resolves to the current
    profile). *)
Theorem loaded_rows_resolve (g : Gui) (r : row) (current : option str) :
  r ∈ tree (snd (load_saved_instances g)) ->
  exists profile,
    row_tags r = [profile] /\ profile ∈ aws_profiles (the_app g) /\
    resolve_profile current (row_tags r) (aws_profiles (the_app g))
      = (if truthy profile then Some profile else current, None).
Proof.
  intros Hr. apply tree_of_saved_instances in Hr
    as (profile & instances & instance & _ & Hknown & _ & ->).
  exists profile. split; [reflexivity|]. split; [exact Hknown|].
  cbn [row_tags saved_row resolve_profile].
  destruct (truthy profile); cbn [andb]; [|reflexivity].
  rewrite bool_decide_eq_true_2 by exact Hknown. reflexivity.
Qed.

Lemma loaded_rows_resolve_sample :
  exists profile,
    row_tags (saved_row (lit "dev") (PyList (values sample_item))) = [profile] /\
    profile ∈ aws_profiles (the_app reloaded_gui) /\
    resolve_profile (Some (lit "prod"))
      (row_tags (saved_row (lit "dev") (PyList (values sample_item))))
      (aws_profiles (the_app reloaded_gui))
      = (if truthy profile then Some profile else Some (lit "prod"), None).
Proof.
  apply (loaded_rows_resolve reloaded_gui).
  assert (Htree : tree (snd (load_saved_instances reloaded_gui))
                  = [saved_row (lit "dev") (PyList (values sample_item))])
    by (vm_compute; reflexivity).
  rewrite Htree. apply list_elem_of_singleton. reflexivity.
Defined.

(** ** Reading the output of [describe-instances] *)

Lemma rows_of_instances_spec (instances : list json) (rows out : list (list json)) :
  rows_of_instances instances rows = inr out <->
  exists new,
    Forall2 (fun instance row => instance_row instance = inr row) instances new /\
    out = rows ++ new.
Proof.
  revert rows. induction instances as [|instance rest IH]; intros rows;
    cbn [rows_of_instances].
  - split.
    + intros [= <-]. exists []. split; [constructor | symmetry; apply app_nil_r].
    + intros (new & Hnew & ->). inversion Hnew. rewrite app_nil_r. reflexivity.
  - destruct (instance_row instance) as [e|row] eqn:Hrow; cbn [sum_bind].
    + split; [discriminate|]. intros (new & Hnew & _).
      inversion Hnew; subst. congruence.
    + rewrite IH. split.
      * intros (new & Hnew & ->). exists (row :: new).
        split; [constructor; assumption | rewrite <- app_assoc; reflexivity].
      * intros (new & Hnew & ->). inversion Hnew as [|? row' ? new' Hrow' Hrest];
          subst. exists new'. split; [exact Hrest|].
        rewrite <- app_assoc. cbn. congruence.
Qed.

Lemma rows_of_reservations_spec (reservations : list json)
    (groups : list (list json)) (rows out : list (list json)) :
  Forall2 (fun reservation instances =>
             py_get reservation (lit "Instances") (JArray [])
               = inr (JArray instances)) reservations groups ->
  rows_of_reservations reservations rows = inr out <->
  exists new,
    Forall2 (fun instance row => instance_row instance = inr row)
      (mjoin groups) new /\
    out = rows ++ new.
Proof.
  intros Hshape. revert rows.
  induction Hshape as [|reservation instances reservations groups Hget _ IH];
    intros rows; cbn [rows_of_reservations mjoin list_join].
  - split.
    + intros [= <-]. exists []. split; [constructor | symmetry; apply app_nil_r].
    + intros (new & Hnew & ->). inversion Hnew. rewrite app_nil_r. reflexivity.
  - rewrite Hget. cbn [sum_bind py_iter].
    destruct (rows_of_instances instances rows) as [e|rows'] eqn:Hrows;
      cbn [sum_bind].
    + split; [discriminate|]. intros (new & Hnew & ->).
      apply Forall2_app_inv_l in Hnew as (new1 & new2 & H1 & H2 & ->).
      assert (Hok : rows_of_instances instances rows = inr (rows ++ new1))
        by (apply rows_of_instances_spec; eauto).
      congruence.
    + apply rows_of_instances_spec in Hrows as (new1 & H1 & ->).
      rewrite IH. split.
      * intros (new2 & H2 & ->). exists (new1 ++ new2).
        split; [apply Forall2_app; assumption
               | rewrite <- app_assoc; reflexivity].
      * intros (new & Hnew & ->).
        apply Forall2_app_inv_l in Hnew as (new1' & new2 & H1' & H2 & ->).
        assert (new1' = new1).
        { clear -H1 H1'. revert new1' H1'.
          induction H1; intros new1' H1'; inversion H1'; subst;
            [reflexivity | f_equal; [congruence | auto]]. }
        subst. exists new2.
        split; [exact H2 | rewrite <- app_assoc; reflexivity].
Qed.

(** X22: for the output of [describe-instances] whose reservations each
    hold a list of instances, the rows built are one per instance, in the
    order of the document (reservation by reservation), each the row of its
    instance; no rows are produced at all if the row of any instance cannot
    be built. *)
Theorem extract_instances_rows (data : json) (reservations : list json)
    (groups : list (list json)) (rows : list (list json)) :
  py_get data (lit "Reservations") (JArray []) = inr (JArray reservations) ->
  Forall2 (fun reservation instances =>
             py_get reservation (lit "Instances") (JArray [])
               = inr (JArray instances)) reservations groups ->
  extract_instances data = inr rows <->
  Forall2 (fun instance row => instance_row instance = inr row)
    (mjoin groups) rows.
Proof.
  intros Hdata Hshape. unfold extract_instances. rewrite Hdata.
  cbn [sum_bind py_iter].
  rewrite (rows_of_reservations_spec reservations groups [] rows Hshape).
  split.
  - intros (new & Hnew & ->). exact Hnew.
  - intros Hrows. exists rows. split; [exact Hrows | reflexivity].
Qed.

(** X23: among tags that are objects, the name of an instance is the
    [Value] of the first tag whose [Key] is ["Name"], the empty string if
    that tag has no [Value]; the tags after it are not looked at, and an
    instance with no such tag has the empty name. *)
Theorem name_of_tags_first (before after : list json) (tag : list (str * json)) :
  Forall (fun t => exists fields,
            t = JObject fields /\
            is_name (default JNull (lookup_field (lit "Key") fields)) = false)
    before ->
  name_of_tags before = inr (JString []) /\
  (is_name (default JNull (lookup_field (lit "Key") tag)) = true ->
   name_of_tags (before ++ JObject tag :: after)
     = inr (default (JString []) (lookup_field (lit "Value") tag))).
Proof.
  intros Hbefore. induction Hbefore as [|t before (fields & -> & Hkey) _ IH].
  - split; [reflexivity|]. intros Hname. cbn [app name_of_tags py_get].
    rewrite Hname. reflexivity.
  - cbn [app name_of_tags py_get]. rewrite Hkey. exact IH.
Qed.

Lemma extract_instances_rows_sample :
  extract_instances sample_document = inr sample_rows <->
  Forall2 (fun instance row => instance_row instance = inr row)
    (mjoin [[web_instance]; [bare_instance]]) sample_rows.
Proof.
  apply (extract_instances_rows sample_document
           [JObject [(lit "OwnerId", JString (lit "1234"));
                     (lit "Instances", JArray [web_instance])];
            JObject [(lit "Instances", JArray [bare_instance])]]
           [[web_instance]; [bare_instance]] sample_rows eq_refl).
  repeat constructor.
Defined.

Lemma name_of_tags_first_sample :
  name_of_tags [JObject [(lit "Key", JString (lit "env"));
                         (lit "Value", JString (lit "test"))]]
    = inr (JString []) /\
  (is_name (default JNull
              (lookup_field (lit "Key")
                 [(lit "Key", JString (lit "Name"));
                  (lit "Value", JString (lit "web"))])) = true ->
   name_of_tags
     ([JObject [(lit "Key", JString (lit "env"));
                (lit "Value", JString (lit "test"))]] ++
      JObject [(lit "Key", JString (lit "Name"));
               (lit "Value", JString (lit "web"))] :: [])
     = inr (default (JString [])
              (lookup_field (lit "Value")
                 [(lit "Key", JString (lit "Name"));
                  (lit "Value", JString (lit "web"))]))).
Proof.
  apply (name_of_tags_first _ []).
  constructor; [|constructor].
  eexists. split; reflexivity.
Defined.

(** ** Loading the instances *)



(** ** The login thread *)

Lemma error_boxes_add (a : App) (e : effect) :
  error_boxes (log (add_log e a))
    = error_boxes (log a) ++
      match error_box_of e with Some box => [box] | None => [] end.
Proof.
  unfold error_boxes. cbn [log add_log]. rewrite omap_app. cbn.
  destruct (error_box_of e); reflexivity.
Qed.

(** X25: the login thread never raises, ends by enabling the Login button
    again and leaves the current profile as it is. It asks for no error box
    when the login command ran and ended with exit code 0, and for exactly
    one otherwise: shown by the thread's own callback when the command
    ended with a non-zero code or the AWS CLI is missing, and handed to a
    callback that reads the name [e] bound by the [except] clause for any
    other exception. *)
Theorem login_thread_outcome aws (a : App) :
  let a' := snd (login_thread aws a) in
  fst (login_thread aws a) = inr tt /\
  last (log a') = Some (Ui (LoginButton true)) /\
  current_profile a' = current_profile a /\
  length (error_boxes (log a'))
    = (length (error_boxes (log a)) +
       if login_succeeds aws (current_profile a) then 0 else 1)%nat /\
  match run_command aws (sso_login (current_profile a)) with
  | inl e =>
      match exn_kind e with
      | FileNotFoundError =>
          Ui (ShowError (lit "Error") aws_cli_not_found) ∈ log a'
      | _ =>
          Callback (lit "e") (ShowError (lit "Login Error") (exn_text e))
            ∈ log a'
      end
  | inr result =>
      returncode result <> 0 ->
      Ui (ShowError (lit "Login Failed") (strip (stderr_text result)))
        ∈ log a'
  end.
Proof.
  cbn zeta. unfold login_thread, finally, login_succeeds, try_except.
  run.
  destruct (run_command aws _) as [e|result]; run.
  - destruct (exn_kind e); run; cbn [fst snd procs current_profile add_log];
      (split; [reflexivity|]); (split; [cbn [log add_log]; apply last_snoc|]);
      (split; [reflexivity|]);
      (split; [rewrite !error_boxes_add, !length_app; cbn; lia|]);
      cbn [log add_log]; in_log.
  - destruct (returncode result =? 0)%Z eqn:Hcode; run;
      cbn [fst snd procs current_profile add_log];
      (split; [reflexivity|]); (split; [cbn [log add_log]; apply last_snoc|]);
      (split; [reflexivity|]);
      (split; [rewrite !error_boxes_add, !length_app; cbn; lia|]).
    + intros Hne. apply Z.eqb_eq in Hcode. contradiction.
    + intros _. cbn [log add_log]. in_log.
Qed.

(** ** Start-up *)




